(** * Step-counter logging face: a shallow embedding and its properties

    The development follows [stepcounter_logging_face.c] (and the reference
    helpers of [math_bench.c]).  Machine integers are values of [Z] with the
    conversions of C written out; the collaborators of the face (filesystem,
    allocator, sensor, clock, tone encoder) are the fields of a [Platform]
    interface, and every call that leaves the face is recorded in a trace. *)

From Stdlib Require Import ZArith List Bool Lia Permutation.
Import ListNotations.

Local Open Scope Z_scope.

(** ** Machine integers *)

Module CInt.

Definition to_uint8 (z : Z) : Z := z mod 256.
Definition to_uint16 (z : Z) : Z := z mod 65536.
Definition to_uint32 (z : Z) : Z := z mod 4294967296.
Definition to_int16 (z : Z) : Z := (z + 32768) mod 65536 - 32768.
Definition to_int32 (z : Z) : Z := (z + 2147483648) mod 4294967296 - 2147483648.

Definition int16 (z : Z) : Prop := -32768 <= z <= 32767.
Definition int32 (z : Z) : Prop := -2147483648 <= z <= 2147483647.
Definition uint8 (z : Z) : Prop := 0 <= z <= 255.
Definition uint16 (z : Z) : Prop := 0 <= z <= 65535.

(** The [n] low bytes of [z], least significant first: the object
    representation of an integer on the little-endian target. *)
Fixpoint le_bytes (n : nat) (z : Z) : list Z :=
  match n with
  | O => []
  | S k => Z.land z 255 :: le_bytes k (Z.shiftr z 8)
  end.

End CInt.
Import CInt.

(** ** Fast arithmetic helpers *)

(** A sensor reading: three signed 16-bit axes. *)
Record lis2dw_reading_t := mk_reading { rx : Z; ry : Z; rz : Z }.

Definition reading_ok (r : lis2dw_reading_t) : Prop :=
  int16 (rx r) /\ int16 (ry r) /\ int16 (rz r).

(** [fast_abs16]: [mask = x >> 15] is stored in an [int16_t]; the sum and the
    exclusive or are computed in [int] and the result is returned as
    [uint16_t]. *)
Definition fast_abs16 (x : Z) : Z :=
  let mask := to_int16 (Z.shiftr x 15) in
  to_uint16 (Z.lxor (x + mask) mask).

(** The compare-and-swap of the sorting network: [if (a < b) swap]. *)
Definition swap_lt (p : Z * Z) : Z * Z :=
  let (a, b) := p in if a <? b then (b, a) else (a, b).

(** [fast_l2_norm]. *)
Definition fast_l2_norm (reading : lis2dw_reading_t) : Z :=
  let ax := fast_abs16 (rx reading) in
  let ay := fast_abs16 (ry reading) in
  let az := fast_abs16 (rz reading) in
  let (ax, ay) := swap_lt (ax, ay) in
  let (ay, az) := swap_lt (ay, az) in
  let (ax, ay) := swap_lt (ax, ay) in
  to_uint32 (ax + Z.shiftr (15 * ay) 4 + Z.shiftr (3 * az) 3).

(** [fast_l1_norm]. *)
Definition fast_l1_norm (reading : lis2dw_reading_t) : Z :=
  to_uint32 (fast_abs16 (rx reading) + fast_abs16 (ry reading)
             + fast_abs16 (rz reading)).

(** The helpers of [math_bench.c], on 32-bit integers. *)
Module MathBench.

(** [bitwise_abs]: [(x ^ mask) - mask] with [mask = x >> 31]. *)
Definition bitwise_abs (x : Z) : Z :=
  let mask := to_int32 (Z.shiftr x 31) in
  to_uint32 (to_int32 (Z.lxor x mask - mask)).

(** [branch_abs]. *)
Definition branch_abs (x : Z) : Z :=
  to_uint32 (if x <? 0 then to_int32 (- x) else x).

(** [approx_l2_norm] on the three integers [x[0]], [x[1]], [x[2]]; the
    arithmetic is unsigned 32-bit. *)
Definition approx_l2_norm (x0 x1 x2 : Z) : Z :=
  let ax := to_uint32 (Z.abs x0) in
  let ay := to_uint32 (Z.abs x1) in
  let az := to_uint32 (Z.abs x2) in
  let (ax, ay) := swap_lt (ax, ay) in
  let (ay, az) := swap_lt (ay, az) in
  let (ax, ay) := swap_lt (ax, ay) in
  to_uint32 (ax + Z.shiftr (to_uint32 (15 * ay)) 4
             + Z.shiftr (to_uint32 (3 * az)) 3).

End MathBench.

(** The identity the specification names for the absolute value,
    [(x ^ (x>>15)) - (x>>15)], read at the same types as [fast_abs16]. *)
Definition spec_mask_abs16 (x : Z) : Z :=
  to_uint16 (Z.lxor x (Z.shiftr x 15) - Z.shiftr x 15).

(** The magnitude formula of the specification on three values already
    sorted. *)
Definition spec_l2_formula (a b c : Z) : Z := a + 15 * b / 16 + 3 * c / 8.

(** ** The collaborators of the face *)

(** The sensor queue as [lis2dw_read_fifo] fills it. *)
Record lis2dw_fifo_t := mk_fifo { readings : list lis2dw_reading_t; count : Z }.

(** [fifo->readings[cnt]]. *)
Definition fifo_reading (fifo : lis2dw_fifo_t) (cnt : Z) : lis2dw_reading_t :=
  nth (Z.to_nat cnt) (readings fifo) (mk_reading 0 0 0).

Inductive movement_event_type_t :=
| EVENT_NONE | EVENT_ACTIVATE | EVENT_TICK
| EVENT_LOW_ENERGY_UPDATE | EVENT_BACKGROUND_TASK | EVENT_TIMEOUT
| EVENT_LIGHT_BUTTON_DOWN | EVENT_LIGHT_BUTTON_UP | EVENT_LIGHT_LONG_PRESS
| EVENT_MODE_BUTTON_DOWN | EVENT_MODE_BUTTON_UP | EVENT_MODE_LONG_PRESS
| EVENT_ALARM_BUTTON_DOWN | EVENT_ALARM_BUTTON_UP | EVENT_ALARM_LONG_PRESS.

Record movement_event_t :=
  mk_event { event_type : movement_event_type_t; subsecond : Z }.

Inductive watch_position_t :=
| WATCH_POSITION_TOP | WATCH_POSITION_TOP_LEFT | WATCH_POSITION_TOP_RIGHT
| WATCH_POSITION_BOTTOM.

(** What the face prints, one constructor per format string. *)
Inductive display_text :=
| TEXT_CHIRP | TEXT_STEPS | TEXT_REC
| TEXT_ERROR (error : Z)
| TEXT_CHIRP_LEFT (left tick_count : Z)
| TEXT_STEP_COUNT (steps : Z)
| TEXT_BLANK
| TEXT_INDEX (index : Z)
| TEXT_FREE (free_space : Z)
| TEXT_RECORDING (free_space : Z).

(** The calls that leave the face, with their arguments and, where the face
    reads it, the answer.  [printf] is left out. *)
Inductive call :=
| lfs_file_open_call (err : Z)
| lfs_file_write_call (buffer : list Z) (ret : Z)
| lfs_file_sync_call
| lfs_file_close_call (err : Z)
| lfs_remove_call (err : Z)
| malloc_call (size ptr : Z)
| free_call (ptr : Z)
| filesystem_read_file_call (ptr length : Z) (ok : bool)
| lis2dw_read_fifo_call (count : Z)
| lis2dw_clear_fifo_call
| lis2dw_enable_fifo_call
| lis2dw_disable_fifo_call
| watch_buzzer_play_note_call
| watch_set_buzzer_period_and_duty_cycle_call (period duty : Z)
| watch_set_buzzer_on_call
| watch_set_buzzer_off_call
| watch_set_indicator_call
| watch_clear_indicator_call
| watch_clear_colon_call
| watch_display_text_call (position : watch_position_t) (text : display_text)
| movement_request_tick_frequency_call (freq : Z)
| movement_default_loop_handler_call (event : movement_event_t)
| chirpy_init_encoder_call
| chirpy_get_next_tone_call (tone : Z).

(** The environment of the face.  [world] is the state of everything outside
    it (storage, heap and memory, sensor, clock); each collaborator that
    answers is a function of that state.  The log file name and the open
    flags are the constants of the source and are not passed. *)
Class Platform := {
  world : Type;
  chirpy_encoder_state_t : Type;
  (* littlefs and the filesystem wrapper *)
  lfs_file_open : world -> Z * world;
  lfs_file_write : list Z -> world -> Z * world;
  lfs_file_sync : world -> world;
  lfs_file_close : world -> Z * world;
  lfs_remove : world -> Z * world;
  filesystem_file_exists : world -> bool;
  filesystem_get_file_size : world -> Z;
  filesystem_read_file : Z -> Z -> world -> bool * world;
  filesystem_get_free_space : world -> Z;
  (* allocator and memory: NULL is 0; [load8 p] is the byte [*p] *)
  malloc : Z -> world -> Z * world;
  free : Z -> world -> world;
  load8 : Z -> world -> Z;
  (* clock: [watch_utility_date_time_to_unix_time (watch_rtc_get_date_time (), 0)] *)
  rtc_unix_time : world -> Z;
  (* sensor *)
  lis2dw_read_fifo : world -> lis2dw_fifo_t * world;
  lis2dw_clear_fifo : world -> world;
  lis2dw_get_state : world -> list Z;
  sizeof_device_state : Z;
  (* movement and buzzer *)
  movement_button_should_sound : world -> bool;
  NotePeriods_A5 : Z;
  (* tone encoder; it reaches the buffer through the callback only *)
  encoder_zero : chirpy_encoder_state_t;
  chirpy_init_encoder : chirpy_encoder_state_t -> chirpy_encoder_state_t;
  chirpy_get_next_tone :
    forall S : Type, (S -> option Z * S) -> chirpy_encoder_state_t -> S ->
                     Z * chirpy_encoder_state_t * S;
  chirpy_get_tone_period : Z -> Z
}.

(** ** Constants *)

Definition LOG_FILE_MARKER : Z := 255.
Definition LOG_MAGIC_BYTES : Z := 16931.
Definition LOG_VERSION : Z := 1.
Definition ERROR_OPEN_FILE : Z := 1.
Definition ERROR_READ_FILE : Z := 2.
Definition ERROR_WRITE_HEADER : Z := 3.
Definition ERROR_WRITE_DATA : Z := 5.
Definition ERROR_ALLOC_MEM : Z := 6.
Definition MIN_FS_SPACE : Z := 512.

Definition LOG_DATA_XYZ : Z := 1.
Definition LOG_DATA_MAG : Z := 2.
Definition LOG_DATA_L1 : Z := 4.

(** [a & flag] read as a C condition. *)
Definition has_flag (a flag : Z) : bool := negb (Z.land a flag =? 0).

Inductive stepcounter_logging_page_t :=
| PAGE_RECORDING | PAGE_LABELING | PAGE_CHIRPING.

(** The values [tick_fun] takes: null after [memset], or one of the two
    tick functions of the face. *)
Inductive tick_fun_t :=
| tick_fun_null | tick_fun_countdown | tick_fun_transmit.

(** [chirpy_tick_state_t] of [chirpy_tx.h]: two 8-bit counters, a 16-bit
    position and the tick function. *)
Record chirpy_tick_state_t := mk_tick_state {
  tick_count : Z;
  tick_compare : Z;
  seq_pos : Z;
  tick_fun : tick_fun_t
}.

(** ** The face *)

Section Face.

Context {P : Platform}.

(** [stepcounter_logging_state_t].  The file handle [file] is owned by
    littlefs and lives in [world]. *)
Record stepcounter_logging_state_t := mk_state {
  start_ts : Z;
  data_type : Z;
  index : Z;
  error : Z;
  steps : Z;
  page : stepcounter_logging_page_t;
  chirpy_tick_state : chirpy_tick_state_t;
  chirpy_encoder_state : chirpy_encoder_state_t;
  chirping : bool
}.

(** The context of the face, its three static variables, the world and the
    calls made so far (oldest first). *)
Record machine := mk_machine {
  state : stepcounter_logging_state_t;
  chirp_data_ptr : Z;
  chirp_data_ix : Z;
  chirp_data_len : Z;
  env : world;
  trace : list call
}.

(** *** Field updates *)

Definition with_start_ts v s :=
  mk_state v (data_type s) (index s) (error s) (steps s) (page s)
           (chirpy_tick_state s) (chirpy_encoder_state s) (chirping s).
Definition with_data_type v s :=
  mk_state (start_ts s) v (index s) (error s) (steps s) (page s)
           (chirpy_tick_state s) (chirpy_encoder_state s) (chirping s).
Definition with_index v s :=
  mk_state (start_ts s) (data_type s) v (error s) (steps s) (page s)
           (chirpy_tick_state s) (chirpy_encoder_state s) (chirping s).
Definition with_error v s :=
  mk_state (start_ts s) (data_type s) (index s) v (steps s) (page s)
           (chirpy_tick_state s) (chirpy_encoder_state s) (chirping s).
Definition with_steps v s :=
  mk_state (start_ts s) (data_type s) (index s) (error s) v (page s)
           (chirpy_tick_state s) (chirpy_encoder_state s) (chirping s).
Definition with_page v s :=
  mk_state (start_ts s) (data_type s) (index s) (error s) (steps s) v
           (chirpy_tick_state s) (chirpy_encoder_state s) (chirping s).
Definition with_tick_state v s :=
  mk_state (start_ts s) (data_type s) (index s) (error s) (steps s) (page s)
           v (chirpy_encoder_state s) (chirping s).
Definition with_encoder_state v s :=
  mk_state (start_ts s) (data_type s) (index s) (error s) (steps s) (page s)
           (chirpy_tick_state s) v (chirping s).
Definition with_chirping v s :=
  mk_state (start_ts s) (data_type s) (index s) (error s) (steps s) (page s)
           (chirpy_tick_state s) (chirpy_encoder_state s) v.

Definition with_tick_count v t :=
  mk_tick_state v (tick_compare t) (seq_pos t) (tick_fun t).
Definition with_tick_compare v t :=
  mk_tick_state (tick_count t) v (seq_pos t) (tick_fun t).
Definition with_seq_pos v t :=
  mk_tick_state (tick_count t) (tick_compare t) v (tick_fun t).
Definition with_tick_fun v t :=
  mk_tick_state (tick_count t) (tick_compare t) (seq_pos t) v.

Definition with_state v m :=
  mk_machine v (chirp_data_ptr m) (chirp_data_ix m) (chirp_data_len m)
             (env m) (trace m).
Definition with_ptr v m :=
  mk_machine (state m) v (chirp_data_ix m) (chirp_data_len m)
             (env m) (trace m).
Definition with_ix v m :=
  mk_machine (state m) (chirp_data_ptr m) v (chirp_data_len m)
             (env m) (trace m).
Definition with_len v m :=
  mk_machine (state m) (chirp_data_ptr m) (chirp_data_ix m) v
             (env m) (trace m).
Definition with_env v m :=
  mk_machine (state m) (chirp_data_ptr m) (chirp_data_ix m)
             (chirp_data_len m) v (trace m).
Definition with_trace v m :=
  mk_machine (state m) (chirp_data_ptr m) (chirp_data_ix m)
             (chirp_data_len m) (env m) v.

(** *** A state monad over [machine] *)

Definition M (A : Type) : Type := machine -> A * machine.

Definition ret {A} (a : A) : M A := fun m => (a, m).

Definition bind {A B} (c : M A) (k : A -> M B) : M B :=
  fun m => let r := c m in k (fst r) (snd r).

Definition run {A} (c : M A) (m : machine) : machine := snd (c m).

(** Read and assign the variables of the face. *)
Definition gets {A} (f : machine -> A) : M A := fun m => (f m, m).

Definition puts (f : machine -> machine) : M unit := fun m => (tt, f m).

(** Read the context. *)
Definition get : M stepcounter_logging_state_t := gets state.

(** Assign to fields of the context. *)
Definition modify (f : stepcounter_logging_state_t -> stepcounter_logging_state_t)
  : M unit :=
  puts (fun m => with_state (f (state m)) m).

Definition modify_tick (f : chirpy_tick_state_t -> chirpy_tick_state_t)
  : M unit :=
  modify (fun s => with_tick_state (f (chirpy_tick_state s)) s).

(** Record a call. *)
Definition emit (c : call) : M unit :=
  puts (fun m => with_trace (trace m ++ [c]) m).

(** A collaborator that only answers. *)
Definition ask {A} (q : world -> A) : M A := gets (fun m => q (env m)).

(** A collaborator that answers and changes the world; [c] names the call
    for the trace. *)
Definition act {A} (f : world -> A * world) (c : A -> call) : M A :=
  fun m =>
    let r := f (env m) in
    (fst r, with_trace (trace m ++ [c (fst r)]) (with_env (snd r) m)).

(** A collaborator that changes the world and answers nothing. *)
Definition act_ (f : world -> world) (c : call) : M unit :=
  fun m => (tt, with_trace (trace m ++ [c]) (with_env (f (env m)) m)).

End Face.

Declare Scope face_scope.
Delimit Scope face_scope with face.
Notation "x <- c ;; k" := (bind c (fun x => k))
  (at level 61, c at next level, right associativity) : face_scope.
Notation "c ;; k" := (bind c (fun _ => k))
  (at level 61, right associativity) : face_scope.

Section Handlers.

Context {P : Platform}.
Local Open Scope face_scope.

(** The calls to littlefs. *)
Definition file_open : M Z := act lfs_file_open lfs_file_open_call.
Definition file_write (buffer : list Z) : M Z :=
  act (lfs_file_write buffer) (lfs_file_write_call buffer).
Definition file_sync : M unit := act_ lfs_file_sync lfs_file_sync_call.
Definition file_close : M Z := act lfs_file_close lfs_file_close_call.

(** [_beep]. *)
Definition _beep : M unit :=
  sound <- ask movement_button_should_sound ;;
  if negb sound then ret tt else emit watch_buzzer_play_note_call.

(** [_log_open]. *)
Definition _log_open : M unit :=
  err <- file_open ;;
  if err <? 0 then modify (with_error ERROR_OPEN_FILE) else ret tt.

(** [_log_close]: the result of the close is ignored. *)
Definition _log_close : M unit :=
  file_sync ;;
  err <- file_close ;;
  if err <? 0 then ret tt else ret tt.

(** [_start_recording]; [ret] and [expected_size] are [uint32_t]. *)
Definition _start_recording : M unit :=
  _beep ;;
  act_ lis2dw_clear_fifo lis2dw_clear_fifo_call ;;
  _log_open ;;
  now_ts <- ask rtc_unix_time ;;
  modify (with_start_ts (to_uint32 now_ts)) ;;
  r1 <- file_write (le_bytes 2 LOG_MAGIC_BYTES) ;;
  r2 <- file_write (le_bytes 1 LOG_VERSION) ;;
  device_state <- ask lis2dw_get_state ;;
  r3 <- file_write device_state ;;
  s <- get ;;
  r4 <- file_write (le_bytes 1 (data_type s)) ;;
  r5 <- file_write (le_bytes 1 (index s)) ;;
  r6 <- file_write (le_bytes 4 (start_ts s)) ;;
  let ret_ := to_uint32 (r1 + r2 + r3 + r4 + r5 + r6) in
  let expected_size := to_uint32 (2 + 1 + (sizeof_device_state + 1) + (1 + 4)) in
  if negb (ret_ =? expected_size)
  then modify (with_error ERROR_WRITE_HEADER)
  else ret tt.

(** [_stop_recording]; [index] is a [uint8_t]. *)
Definition _stop_recording : M unit :=
  _beep ;;
  _log_close ;;
  modify (with_start_ts 0) ;;
  modify (fun s => with_index (to_uint8 (index s + 1)) s).

(** The three bytes of a magnitude, least significant first. *)
Definition mag_buffer (mag : Z) : list Z :=
  [ to_uint8 (Z.land (Z.shiftr mag 0) 255);
    to_uint8 (Z.land (Z.shiftr mag 8) 255);
    to_uint8 (Z.land (Z.shiftr mag 16) 255) ].

(** One round of the loop of [_log_data] for the reading at [cnt]; the
    answer is [false] where the source jumps to [error]. *)
Definition _log_data_reading (data_type : Z) (r : lis2dw_reading_t) : M bool :=
  ok <- (if has_flag data_type LOG_DATA_XYZ
         then
           w1 <- file_write (le_bytes 2 (rx r)) ;;
           w2 <- file_write (le_bytes 2 (ry r)) ;;
           w3 <- file_write (le_bytes 2 (rz r)) ;;
           ret (to_uint32 (w1 + w2 + w3) =? 3 * 2)
         else ret true) ;;
  if negb ok then ret false
  else if has_flag data_type LOG_DATA_MAG
  then
    let mag := if has_flag data_type LOG_DATA_L1
               then fast_l1_norm r else fast_l2_norm r in
    w <- file_write (mag_buffer mag) ;;
    ret (to_uint32 w =? 3)
  else ret true.

(** The loop [for (cnt = 0; cnt < fifo->count; cnt++)], with [todo] rounds
    left. *)
Fixpoint _log_data_loop (fifo : lis2dw_fifo_t) (todo : nat) (cnt : Z) : M bool :=
  match todo with
  | O => ret true
  | S todo' =>
      s <- get ;;
      ok <- _log_data_reading (data_type s) (fifo_reading fifo cnt) ;;
      if ok then _log_data_loop fifo todo' (cnt + 1) else ret false
  end.

(** [_log_data]. *)
Definition _log_data (fifo : lis2dw_fifo_t) : M unit :=
  if count fifo =? 0 then ret tt
  else
    w <- file_write [count fifo] ;;
    ok <- (if negb (to_uint32 w =? 1) then ret false
           else _log_data_loop fifo (Z.to_nat (count fifo)) 0) ;;
    if ok then ret tt else modify (with_error ERROR_WRITE_DATA).

(** [_log_steps]; [steps] is a [uint16_t]. *)
Definition _log_steps : M unit :=
  _log_open ;;
  w1 <- file_write [LOG_FILE_MARKER] ;;
  if negb (to_uint32 w1 =? 1) then modify (with_error ERROR_WRITE_DATA)
  else
    s <- get ;;
    w2 <- file_write (le_bytes 2 (steps s)) ;;
    if negb (to_uint32 w2 =? 2) then modify (with_error ERROR_WRITE_DATA)
    else
      _log_close ;;
      modify (with_steps 0).

(** [_delete_log_file]: the result is ignored. *)
Definition _delete_log_file : M unit :=
  err <- act lfs_remove lfs_remove_call ;;
  if err <? 0 then ret tt else ret tt.

(** [_chirp_quit]. *)
Definition _chirp_quit : M unit :=
  emit watch_clear_indicator_call ;;
  emit watch_set_buzzer_off_call ;;
  emit (movement_request_tick_frequency_call 1) ;;
  modify (with_chirping false) ;;
  ptr <- gets chirp_data_ptr ;;
  (if negb (ptr =? 0) then act_ (free ptr) (free_call ptr) else ret tt) ;;
  puts (with_ptr 0) ;;
  puts (with_ix 0) ;;
  puts (with_len 0).

(** [_chirp_next_byte], the callback handed to the encoder: [None] is the
    answer 0, [Some b] the answer 1 with [*next_byte = b]. *)
Definition _chirp_next_byte : M (option Z) :=
  ix <- gets chirp_data_ix ;;
  len <- gets chirp_data_len ;;
  if ix =? len then ret None
  else
    ptr <- gets chirp_data_ptr ;;
    next_byte <- ask (load8 (ptr + ix)) ;;
    puts (with_ix (to_uint16 (ix + 1))) ;;
    ret (Some next_byte).

(** [chirpy_get_next_tone (&state->chirpy_encoder_state)]: the encoder
    runs with the callback it was initialised with. *)
Definition get_next_tone : M Z :=
  fun m =>
    let r := chirpy_get_next_tone machine _chirp_next_byte
               (chirpy_encoder_state (state m)) m in
    let tone := to_uint8 (fst (fst r)) in
    let m1 := snd r in
    let m2 := with_state (with_encoder_state (snd (fst r)) (state m1)) m1 in
    (tone, with_trace (trace m2 ++ [chirpy_get_next_tone_call tone]) m2).

(** [_chirp_tick_transmit]. *)
Definition _chirp_tick_transmit : M unit :=
  tone <- get_next_tone ;;
  if tone =? 255 then _chirp_quit
  else
    let period := to_uint16 (chirpy_get_tone_period tone) in
    emit (watch_set_buzzer_period_and_duty_cycle_call period 25) ;;
    emit watch_set_buzzer_on_call.

(** [_load_log_file]; [chirp_data_len] is a [uint16_t]. *)
Definition _load_log_file : M unit :=
  present <- ask filesystem_file_exists ;;
  if negb present then modify (with_error ERROR_OPEN_FILE)
  else
    size <- ask filesystem_get_file_size ;;
    puts (with_len (to_uint16 size)) ;;
    len <- gets chirp_data_len ;;
    ptr <- act (malloc len) (malloc_call len) ;;
    puts (with_ptr ptr) ;;
    if ptr =? 0 then modify (with_error ERROR_ALLOC_MEM)
    else
      ok <- act (filesystem_read_file ptr len)
                (filesystem_read_file_call ptr len) ;;
      if negb ok then modify (with_error ERROR_READ_FILE) else ret tt.

(** [_chirp_countdown_tick]. *)
Definition _chirp_countdown_tick : M unit :=
  s <- get ;;
  if seq_pos (chirpy_tick_state s) =? 8 * 3
  then
    modify_tick (with_tick_compare 3) ;;
    modify_tick (with_tick_count (to_uint8 (-1))) ;;
    modify_tick (with_seq_pos 0) ;;
    modify (fun s => with_encoder_state
                       (chirpy_init_encoder (chirpy_encoder_state s)) s) ;;
    emit chirpy_init_encoder_call ;;
    modify_tick (with_tick_fun tick_fun_transmit) ;;
    _load_log_file
  else
    (if seq_pos (chirpy_tick_state s) mod 8 =? 0
     then
       emit (watch_set_buzzer_period_and_duty_cycle_call NotePeriods_A5 25) ;;
       emit watch_set_buzzer_on_call
     else if seq_pos (chirpy_tick_state s) mod 8 =? 1
          then emit watch_set_buzzer_off_call
          else ret tt) ;;
    modify_tick (fun t => with_seq_pos (to_uint16 (seq_pos t + 1)) t).

(** [_chrip_setup]. *)
Definition _chrip_setup : M unit :=
  emit (movement_request_tick_frequency_call 64) ;;
  emit watch_set_indicator_call ;;
  modify (with_chirping true) ;;
  modify_tick (with_tick_count (to_uint8 (-1))) ;;
  modify_tick (with_tick_compare 8) ;;
  modify_tick (with_seq_pos 0) ;;
  modify_tick (with_tick_fun tick_fun_countdown).

(** The call through [tick_fun].  The pointer is null only before the
    first [_chrip_setup], when [chirping] is false and no call is made. *)
Definition call_tick_fun (f : tick_fun_t) : M unit :=
  match f with
  | tick_fun_null => ret tt
  | tick_fun_countdown => _chirp_countdown_tick
  | tick_fun_transmit => _chirp_tick_transmit
  end.

Definition display (position : watch_position_t) (text : display_text) : M unit :=
  emit (watch_display_text_call position text).

(** [_chirping_display]; [left] is a [uint32_t]. *)
Definition _chirping_display : M unit :=
  display WATCH_POSITION_TOP TEXT_CHIRP ;;
  s <- get ;;
  if negb (error s =? 0)
  then display WATCH_POSITION_BOTTOM (TEXT_ERROR (error s))
  else
    len <- gets chirp_data_len ;;
    ix <- gets chirp_data_ix ;;
    let left := to_uint32 (len - ix) in
    display WATCH_POSITION_BOTTOM
            (TEXT_CHIRP_LEFT left (tick_count (chirpy_tick_state s))).

(** [_labeling_display]; [subsecond] is a [uint8_t]. *)
Definition _labeling_display (subsecond : Z) : M unit :=
  display WATCH_POSITION_TOP TEXT_STEPS ;;
  s <- get ;;
  display WATCH_POSITION_BOTTOM
          (if subsecond mod 2 =? 0 then TEXT_STEP_COUNT (steps s) else TEXT_BLANK).

(** [_recording_display]. *)
Definition _recording_display : M unit :=
  emit watch_clear_colon_call ;;
  s <- get ;;
  display WATCH_POSITION_TOP_RIGHT (TEXT_INDEX (index s)) ;;
  display WATCH_POSITION_TOP_LEFT TEXT_REC ;;
  free_space <- ask filesystem_get_free_space ;;
  display WATCH_POSITION_BOTTOM
          (if negb (error s =? 0) then TEXT_ERROR (error s)
           else if start_ts s =? 0 then TEXT_FREE free_space
                else TEXT_RECORDING free_space).

(** [_switch_to_labeling]. *)
Definition _switch_to_labeling : M unit :=
  emit (movement_request_tick_frequency_call 4) ;;
  modify (with_page PAGE_LABELING) ;;
  _labeling_display 0 ;;
  _beep.

(** [_switch_to_recording]. *)
Definition _switch_to_recording : M unit :=
  emit (movement_request_tick_frequency_call 1) ;;
  modify (with_page PAGE_RECORDING) ;;
  _recording_display ;;
  _beep.

(** [_switch_to_chirping]. *)
Definition _switch_to_chirping : M unit :=
  emit (movement_request_tick_frequency_call 1) ;;
  modify (with_page PAGE_CHIRPING) ;;
  _chirping_display ;;
  _beep.

(** [_enforce_quota]. *)
Definition _enforce_quota : M unit :=
  free_space <- ask filesystem_get_free_space ;;
  if free_space <? MIN_FS_SPACE
  then _stop_recording ;; _switch_to_labeling
  else ret tt.

(** [lis2dw_read_fifo (&fifo)]. *)
Definition read_fifo : M lis2dw_fifo_t :=
  act lis2dw_read_fifo (fun fifo => lis2dw_read_fifo_call (count fifo)).

(** [_recording_loop]. *)
Definition _recording_loop (event : movement_event_t) : M bool :=
  match event_type event with
  | EVENT_ACTIVATE => _recording_display
  | EVENT_TICK =>
      s <- get ;;
      (if negb (start_ts s =? 0)
       then
         fifo <- read_fifo ;;
         _log_data fifo ;;
         act_ lis2dw_clear_fifo lis2dw_clear_fifo_call ;;
         _enforce_quota
       else ret tt) ;;
      _recording_display
  | EVENT_ALARM_BUTTON_UP =>
      s <- get ;;
      if start_ts s =? 0
      then _start_recording ;; _recording_display
      else _stop_recording ;; _switch_to_labeling
  | EVENT_ALARM_LONG_PRESS => _switch_to_chirping
  | _ => emit (movement_default_loop_handler_call event)
  end ;;
  ret true.

(** [_labeling_loop]; [steps] is a [uint16_t]. *)
Definition _labeling_loop (event : movement_event_t) : M bool :=
  match event_type event with
  | EVENT_ACTIVATE | EVENT_TICK => _labeling_display (subsecond event)
  | EVENT_LIGHT_BUTTON_DOWN =>
      modify (fun s => with_steps (if 0 <? steps s
                                   then to_uint16 (steps s - 1) else 0) s) ;;
      _labeling_display (subsecond event)
  | EVENT_ALARM_BUTTON_DOWN =>
      modify (fun s => with_steps (to_uint16 (steps s + 10)) s) ;;
      _labeling_display (subsecond event)
  | EVENT_MODE_BUTTON_UP => _log_steps ;; _switch_to_recording
  | _ => emit (movement_default_loop_handler_call event)
  end ;;
  ret true.

(** [_chirping_loop]; [tick_count] is a [uint8_t]. *)
Definition _chirping_loop (event : movement_event_t) : M bool :=
  match event_type event with
  | EVENT_ACTIVATE | EVENT_TICK =>
      _chirping_display ;;
      s <- get ;;
      if chirping s
      then
        modify_tick (fun t => with_tick_count (to_uint8 (tick_count t + 1)) t) ;;
        s <- get ;;
        if tick_count (chirpy_tick_state s) =? tick_compare (chirpy_tick_state s)
        then
          modify_tick (with_tick_count 0) ;;
          call_tick_fun (tick_fun (chirpy_tick_state s))
        else ret tt
      else ret tt
  | EVENT_LIGHT_LONG_PRESS =>
      s <- get ;;
      (if chirping s then _chirp_quit else ret tt) ;;
      _delete_log_file ;;
      _switch_to_recording
  | EVENT_LIGHT_BUTTON_DOWN => ret tt
  | EVENT_MODE_BUTTON_UP =>
      s <- get ;;
      (if chirping s then _chirp_quit else ret tt) ;;
      _switch_to_recording
  | EVENT_ALARM_BUTTON_UP => _chrip_setup
  | _ => emit (movement_default_loop_handler_call event)
  end ;;
  ret true.

(** The context after [malloc] and [memset] to zero. *)
Definition zero_state : stepcounter_logging_state_t :=
  mk_state 0 0 0 0 0 PAGE_RECORDING (mk_tick_state 0 0 0 tick_fun_null)
           encoder_zero false.

(** [stepcounter_logging_face_setup]; [None] is a null [*context_ptr]. *)
Definition stepcounter_logging_face_setup
           (context : option stepcounter_logging_state_t)
  : stepcounter_logging_state_t :=
  let s := match context with None => zero_state | Some s => s end in
  with_page PAGE_RECORDING (with_data_type LOG_DATA_MAG (with_index 1 s)).

(** [stepcounter_logging_face_activate]. *)
Definition stepcounter_logging_face_activate : M unit :=
  modify (with_error 0) ;;
  emit lis2dw_enable_fifo_call ;;
  _recording_display.

(** [stepcounter_logging_face_loop]. *)
Definition stepcounter_logging_face_loop (event : movement_event_t) : M bool :=
  s <- get ;;
  match page s with
  | PAGE_RECORDING => _recording_loop event
  | PAGE_LABELING => _labeling_loop event
  | PAGE_CHIRPING => _chirping_loop event
  end.

(** [stepcounter_logging_face_resign]. *)
Definition stepcounter_logging_face_resign : M unit :=
  s <- get ;;
  (if negb (start_ts s =? 0)
   then _stop_recording ;; _labeling_display 0
   else ret tt) ;;
  s <- get ;;
  (if chirping s then _chirp_quit else ret tt) ;;
  emit lis2dw_disable_fifo_call.

(** The machine when the firmware starts: the statics are zero and the
    context has been set up once. *)
Definition boot (w : world) : machine :=
  mk_machine (stepcounter_logging_face_setup None) 0 0 0 w [].

End Handlers.

(** ** Reading a trace *)

Definition is_write (c : call) : bool :=
  match c with lfs_file_write_call _ _ => true | _ => false end.

Definition is_close (c : call) : bool :=
  match c with lfs_file_close_call _ => true | _ => false end.

Definition is_free (c : call) : bool :=
  match c with free_call _ => true | _ => false end.

Definition is_get_next_tone (c : call) : bool :=
  match c with chirpy_get_next_tone_call _ => true | _ => false end.

(** The write calls of a trace. *)
Definition writes (t : list call) : list call := filter is_write t.

(** Whether the log file handle is open after the calls of [t], given that it
    was [opened] before: a successful [lfs_file_open] opens it, a
    [lfs_file_close] closes it. *)
Definition handle_after (opened : bool) (t : list call) : bool :=
  fold_left (fun o c =>
               match c with
               | lfs_file_open_call err => if err <? 0 then o else true
               | lfs_file_close_call _ => false
               | _ => o
               end) t opened.

(** Whether the buzzer sounds a continuous tone after the calls of [t]. *)
Definition buzzer_after (sounding : bool) (t : list call) : bool :=
  fold_left (fun o c =>
               match c with
               | watch_set_buzzer_on_call => true
               | watch_set_buzzer_off_call => false
               | _ => o
               end) t sounding.

(** The tick frequency last requested in [t]. *)
Definition tick_frequency_after (freq : Z) (t : list call) : Z :=
  fold_left (fun o c =>
               match c with
               | movement_request_tick_frequency_call f => f
               | _ => o
               end) t freq.

(** ** A small platform to run the face on *)

Module Sim.

Record sim_world := mk_sim {
  storage_free : Z;            (* free bytes of the filesystem *)
  log_file : option (list Z);  (* the bytes of the log file, if it exists *)
  open_answer : Z;             (* what lfs_file_open answers *)
  handle_open : bool;          (* the log file handle is open *)
  heap_answer : Z;             (* what malloc answers; 0 when exhausted *)
  read_answer : bool;          (* what filesystem_read_file answers *)
  sensor_fifo : lis2dw_fifo_t; (* the samples waiting in the sensor *)
  clock : Z;                   (* the unix time of the clock *)
  button_sound : bool
}.

Definition LFS_ERR_BADF : Z := -9.
Definition LFS_ERR_NOSPC : Z := -28.
Definition LFS_ERR_NOENT : Z := -2.

Definition file_bytes (w : sim_world) : list Z :=
  match log_file w with Some l => l | None => [] end.

Definition sim_open (w : sim_world) : Z * sim_world :=
  if open_answer w <? 0 then (open_answer w, w)
  else (0, mk_sim (storage_free w) (Some (file_bytes w)) (open_answer w) true
                  (heap_answer w) (read_answer w) (sensor_fifo w) (clock w)
                  (button_sound w)).

Definition sim_write (buffer : list Z) (w : sim_world) : Z * sim_world :=
  if negb (handle_open w) then (LFS_ERR_BADF, w)
  else if storage_free w <? Z.of_nat (length buffer) then (LFS_ERR_NOSPC, w)
  else (Z.of_nat (length buffer),
        mk_sim (storage_free w - Z.of_nat (length buffer))
               (Some (file_bytes w ++ buffer)) (open_answer w) true
               (heap_answer w) (read_answer w) (sensor_fifo w) (clock w)
               (button_sound w)).

Definition sim_close (w : sim_world) : Z * sim_world :=
  if negb (handle_open w) then (LFS_ERR_BADF, w)
  else (0, mk_sim (storage_free w) (log_file w) (open_answer w) false
                  (heap_answer w) (read_answer w) (sensor_fifo w) (clock w)
                  (button_sound w)).

Definition sim_remove (w : sim_world) : Z * sim_world :=
  match log_file w with
  | None => (LFS_ERR_NOENT, w)
  | Some l =>
      (0, mk_sim (storage_free w + Z.of_nat (length l)) None (open_answer w)
                 (handle_open w) (heap_answer w) (read_answer w)
                 (sensor_fifo w) (clock w) (button_sound w))
  end.

Definition sim_clear_fifo (w : sim_world) : sim_world :=
  mk_sim (storage_free w) (log_file w) (open_answer w) (handle_open w)
         (heap_answer w) (read_answer w) (mk_fifo [] 0) (clock w)
         (button_sound w).

(** A stand-in encoder: one tone per byte of the buffer, then the
    sentinel. *)
Definition sim_next_tone (S : Type) (next_byte : S -> option Z * S)
           (enc : unit) (s : S) : Z * unit * S :=
  match next_byte s with
  | (Some b, s') => (Z.land b 7, enc, s')
  | (None, s') => (255, enc, s')
  end.

#[export] Instance platform : Platform := {|
  world := sim_world;
  chirpy_encoder_state_t := unit;
  lfs_file_open := sim_open;
  lfs_file_write := sim_write;
  lfs_file_sync := fun w => w;
  lfs_file_close := sim_close;
  lfs_remove := sim_remove;
  filesystem_file_exists := fun w => match log_file w with Some _ => true | None => false end;
  filesystem_get_file_size := fun w => Z.of_nat (length (file_bytes w));
  filesystem_read_file := fun _ _ w => (read_answer w, w);
  filesystem_get_free_space := storage_free;
  malloc := fun _ w => (heap_answer w, w);
  free := fun _ w => w;
  load8 := fun p w => nth (Z.to_nat (p - heap_answer w)) (file_bytes w) 0;
  rtc_unix_time := clock;
  lis2dw_read_fifo := fun w => (sensor_fifo w, w);
  lis2dw_clear_fifo := sim_clear_fifo;
  lis2dw_get_state := fun _ => [0; 0; 0; 0];
  sizeof_device_state := 4;
  movement_button_should_sound := button_sound;
  NotePeriods_A5 := 1136;
  encoder_zero := tt;
  chirpy_init_encoder := fun e => e;
  chirpy_get_next_tone := sim_next_tone;
  chirpy_get_tone_period := fun tone => 1000 - 100 * tone
|}.

(** A world with [free] bytes left, the log file [file] (if any), a heap
    that answers, and no sample waiting. *)
Definition quiet (free : Z) (file : option (list Z)) : sim_world :=
  mk_sim free file 0 false 4096 true (mk_fifo [] 0) 1761782400 false.

End Sim.

(** ** Notions used to state the properties *)

Section Notions.

Context {P : Platform}.
Local Open Scope face_scope.

(** The host delivers the events one at a time, each handler running to
    its end before the next event. *)
Definition deliver (events : list movement_event_t) (m : machine) : machine :=
  fold_left (fun m e => run (stepcounter_logging_face_loop e) m) events m.

(** What a tick of an active recording does before it checks the quota:
    the first three statements of the [EVENT_TICK] case of
    [_recording_loop]. *)
Definition recording_tick_log : M unit :=
  fifo <- read_fifo ;;
  _log_data fifo ;;
  act_ lis2dw_clear_fifo lis2dw_clear_fifo_call.


(** The three ways the load of the log file fails in a world, with the
    error code of each. *)
Inductive load_failure (w : world) : Z -> Prop :=
| load_missing :
    filesystem_file_exists w = false ->
    load_failure w ERROR_OPEN_FILE
| load_no_memory :
    filesystem_file_exists w = true ->
    fst (malloc (to_uint16 (filesystem_get_file_size w)) w) = 0 ->
    load_failure w ERROR_ALLOC_MEM
| load_unreadable :
    filesystem_file_exists w = true ->
    let len := to_uint16 (filesystem_get_file_size w) in
    let a := malloc len w in
    fst a <> 0 ->
    fst (filesystem_read_file (fst a) len (snd a)) = false ->
    load_failure w ERROR_READ_FILE.

(** The scheduler at rest: not chirping, no buffer, cursor and length
    zero.  Every machine at rest is [at_rest] of itself. *)
Definition at_rest (m : machine) : machine :=
  with_len 0 (with_ix 0 (with_ptr 0
    (with_state (with_chirping false (state m)) m))).

(** The postcondition [Q] holds of the answer and the machine that the
    computation [c] leaves when run on [m]. *)
Definition wp {A} (c : M A) (Q : A -> machine -> Prop) (m : machine) : Prop :=
  Q (fst (c m)) (snd (c m)).

(** The calls [_chirp_quit] makes besides the release of the buffer. *)
Definition quit_calls : list call :=
  [ watch_clear_indicator_call; watch_set_buzzer_off_call;
    movement_request_tick_frequency_call 1 ].

End Notions.

(** ** Concrete runs on the small platform *)

Module Scenario.

Import Sim.

Definition event (t : movement_event_type_t) : movement_event_t :=
  mk_event t 0.

(** The face after setup and activation in world [w]. *)
Definition started (w : sim_world) : machine :=
  run stepcounter_logging_face_activate (boot w).

(** The sensor has gathered [fifo] since the last event. *)
Definition sense (fifo : lis2dw_fifo_t) (m : machine) : machine :=
  let w := env m in
  with_env (mk_sim (storage_free w) (log_file w) (open_answer w)
                   (handle_open w) (heap_answer w) (read_answer w) fifo
                   (clock w) (button_sound w)) m.


(** The labeling page with 23 steps entered, reached by a recording that
    is started and stopped. *)
Definition labeling_23 (free : Z) : machine :=
  let m := deliver [event EVENT_ALARM_BUTTON_UP; event EVENT_ALARM_BUTTON_UP;
                    event EVENT_ALARM_BUTTON_DOWN; event EVENT_ALARM_BUTTON_DOWN;
                    event EVENT_ALARM_BUTTON_DOWN]
                   (started (quiet free None)) in
  deliver (repeat (event EVENT_LIGHT_BUTTON_DOWN) 7) m.

(** A world in which [lfs_file_open] fails with [LFS_ERR_NOSPC]. *)
Definition no_open : sim_world :=
  mk_sim 0 None LFS_ERR_NOSPC false 4096 true (mk_fifo [] 0) 1761782400 false.

(** A world with a log file of three bytes and an exhausted heap. *)
Definition no_heap : sim_world :=
  mk_sim 4000 (Some [35; 66; 1]) 0 false 0 true (mk_fifo [] 0) 1761782400 false.

(** The chirping page, the transmission started and the countdown run
    through its 24 positions; the tick function fires again on the next
    tick. *)
Definition countdown_over (w : sim_world) : machine :=
  deliver ([event EVENT_ALARM_LONG_PRESS; event EVENT_ALARM_BUTTON_UP]
             ++ repeat (event EVENT_TICK) (8 * 25))
          (started w).

(** A transmission in progress over a buffer of two bytes of which both
    have been sent. *)
Definition transmitting_done : machine :=
  mk_machine (mk_state 0 LOG_DATA_MAG 1 0 0 PAGE_CHIRPING
                       (mk_tick_state 0 3 0 tick_fun_transmit) tt true)
             4096 2 2 (quiet 4000 (Some [35; 66])) [].

(** A recording in progress with room on the filesystem and two samples
    waiting in the sensor. *)
Definition recording_roomy : machine :=
  sense (mk_fifo [mk_reading 16 15 6; mk_reading (-3) 4 0] 2)
        (deliver [event EVENT_ALARM_BUTTON_UP] (started (quiet 4000 None))).


(** The recording with room, the raw axes selected besides the magnitude
    and 23 steps pending. *)
Definition recording_raw : machine :=
  with_state (with_steps 23 (with_data_type 3 (state recording_roomy)))
             recording_roomy.

(** The chirping page with no transmission running, a log file of three
    bytes on the filesystem. *)
Definition chirping_idle : machine :=
  deliver [event EVENT_ALARM_LONG_PRESS]
          (started (quiet 4000 (Some [35; 66; 1]))).

(** The same after the release of the alarm button. *)
Definition chirping_started : machine :=
  deliver [event EVENT_ALARM_BUTTON_UP] chirping_idle.

(** A transmission in progress over a buffer of three bytes, the cursor at
    [ix]. *)
Definition transmitting_at (ix : Z) : machine :=
  mk_machine (mk_state 0 LOG_DATA_MAG 1 0 0 PAGE_CHIRPING
                       (mk_tick_state 0 3 0 tick_fun_transmit) tt true)
             4096 ix 3 (quiet 4000 (Some [35; 66; 1])) [].

End Scenario.

(** ** Notions used to state further properties *)

(** The number a list of bytes stands for, least significant byte first. *)
Fixpoint le_value (bytes : list Z) : Z :=
  match bytes with
  | [] => 0
  | b :: rest => b + 256 * le_value rest
  end.

(** The buffers handed to [lfs_file_write] in a trace, in order. *)
Definition write_buffers (t : list call) : list (list Z) :=
  flat_map (fun c => match c with
                     | lfs_file_write_call buffer _ => [buffer]
                     | _ => []
                     end) t.

(** The calls that reach the filesystem or the heap. *)
Definition touches_storage (c : call) : bool :=
  match c with
  | lfs_file_open_call _ | lfs_file_write_call _ _ | lfs_file_sync_call
  | lfs_file_close_call _ | lfs_remove_call _ | malloc_call _ _ | free_call _
  | filesystem_read_file_call _ _ _ => true
  | _ => false
  end.

Definition is_buzzer_on (c : call) : bool :=
  match c with watch_set_buzzer_on_call => true | _ => false end.

Definition is_display (c : call) : bool :=
  match c with watch_display_text_call _ _ => true | _ => false end.

Definition is_remove (c : call) : bool :=
  match c with lfs_remove_call _ => true | _ => false end.

(** The bytes of one sample of a data block: the raw axes when the XYZ flag
    is set, then the magnitude when the MAG flag is set. *)
Definition sample_bytes (data_type : Z) (r : lis2dw_reading_t) : list Z :=
  (if has_flag data_type LOG_DATA_XYZ
   then le_bytes 2 (rx r) ++ le_bytes 2 (ry r) ++ le_bytes 2 (rz r)
   else [])
  ++ (if has_flag data_type LOG_DATA_MAG
      then mag_buffer (if has_flag data_type LOG_DATA_L1
                       then fast_l1_norm r else fast_l2_norm r)
      else []).

(** The readings [fifo->readings[cnt]], ..., [fifo->readings[cnt + n - 1]]. *)
Fixpoint fifo_readings (fifo : lis2dw_fifo_t) (n : nat) (cnt : Z)
  : list lis2dw_reading_t :=
  match n with
  | O => []
  | S n' => fifo_reading fifo cnt :: fifo_readings fifo n' (cnt + 1)
  end.

(** The bytes of a data block. *)
Definition block_bytes (data_type : Z) (fifo : lis2dw_fifo_t) : list Z :=
  count fifo
  :: flat_map (sample_bytes data_type)
              (fifo_readings fifo (Z.to_nat (count fifo)) 0).

(** Every [lfs_file_write] of a trace returned the length of its buffer. *)
Definition writes_full (t : list call) : bool :=
  forallb (fun c => match c with
                    | lfs_file_write_call buffer ret =>
                        ret =? Z.of_nat (length buffer)
                    | _ => true
                    end) t.


Section MoreNotions.

Context {P : Platform}.
Local Open Scope face_scope.

(** What the rounds of the loop of [_log_data] over the readings [rs] do
    to the machine [m], [res] being the answer and the machine they leave:
    they only write; when they run to the end the bytes handed over are
    those of the samples, and they stop early only after a write that was
    not complete. *)
Definition round_spec (dt : Z) (rs : list lis2dw_reading_t)
           (m : machine) (res : bool * machine) : Prop :=
  exists post,
    trace (snd res) = trace m ++ post
    /\ state (snd res) = state m
    /\ chirp_data_ptr (snd res) = chirp_data_ptr m
    /\ chirp_data_ix (snd res) = chirp_data_ix m
    /\ chirp_data_len (snd res) = chirp_data_len m
    /\ forallb is_write post = true
    /\ (fst res = true ->
        concat (write_buffers post) = flat_map (sample_bytes dt) rs)
    /\ (fst res = false -> writes_full post = false).

(** [n] calls of the callback in a row, as the encoder makes them while it
    is fed: the bytes supplied, up to the first answer 0. *)
Fixpoint drain (n : nat) : M (list Z) :=
  match n with
  | O => ret []
  | S n' =>
      b <- _chirp_next_byte ;;
      match b with
      | None => ret []
      | Some x => rest <- drain n' ;; ret (x :: rest)
      end
  end.

(** The bytes [ptr[ix]], ..., [ptr[ix + n - 1]] of the memory of [w]. *)
Definition memory_bytes (w : world) (ptr ix : Z) (n : nat) : list Z :=
  map (fun k => load8 (ptr + (ix + Z.of_nat k)) w) (seq 0 n).

(** The countdown, [n] ticks after the tick that follows its start on the
    machine [m0]: the divider and the position as [n] gives them, the
    countdown function still installed, and since [m0] nothing but
    display and buzzer calls, the alert tone having been switched on
    [(n + 56) / 64] times. *)
Definition countdown_at (m0 : machine) (n : Z) (m : machine) : Prop :=
  state m
  = with_tick_state (mk_tick_state (n mod 8) 8 (n / 8) tick_fun_countdown)
                    (state m0)
  /\ env m = env m0
  /\ chirp_data_ptr m = chirp_data_ptr m0
  /\ chirp_data_ix m = chirp_data_ix m0
  /\ chirp_data_len m = chirp_data_len m0
  /\ exists post,
      trace m = trace m0 ++ post
      /\ filter touches_storage post = []
      /\ filter is_get_next_tone post = []
      /\ Z.of_nat (length (filter is_buzzer_on post)) = (n + 56) / 64.

End MoreNotions.

(** * Properties *)

(** ** Arithmetic helpers *)

Lemma shiftr15_int16 x : int16 x -> Z.shiftr x 15 = if x <? 0 then -1 else 0.
Proof.
  unfold int16; intros Hx. rewrite Z.shiftr_div_pow2 by lia.
  change (2 ^ 15) with 32768.
  destruct (Z.ltb_spec x 0).
  - symmetry. apply Z.div_unique with (r := x + 32768); lia.
  - apply Z.div_small; lia.
Qed.

Lemma fast_abs16_abs x : int16 x -> fast_abs16 x = Z.abs x.
Proof.
  intros Hx. unfold fast_abs16. rewrite (shiftr15_int16 x Hx).
  unfold int16 in Hx.
  destruct (Z.ltb_spec x 0).
  - change (to_int16 (-1)) with (-1).
    rewrite Z.lxor_m1_r. unfold Z.lnot, to_uint16.
    rewrite Z.mod_small by lia. lia.
  - change (to_int16 0) with 0.
    rewrite Z.lxor_0_r, Z.add_0_r. unfold to_uint16.
    rewrite Z.mod_small by lia. lia.
Qed.

Lemma spec_mask_abs16_abs x : int16 x -> spec_mask_abs16 x = Z.abs x.
Proof.
  intros Hx. unfold spec_mask_abs16. rewrite (shiftr15_int16 x Hx).
  unfold int16 in Hx.
  destruct (Z.ltb_spec x 0).
  - rewrite Z.lxor_m1_r. unfold Z.lnot, to_uint16.
    rewrite Z.mod_small by lia. lia.
  - rewrite Z.lxor_0_r, Z.sub_0_r. unfold to_uint16.
    rewrite Z.mod_small by lia. lia.
Qed.

Lemma shiftr31_int16 x : int16 x -> Z.shiftr x 31 = if x <? 0 then -1 else 0.
Proof.
  unfold int16; intros Hx. rewrite Z.shiftr_div_pow2 by lia.
  change (2 ^ 31) with 2147483648.
  destruct (Z.ltb_spec x 0).
  - symmetry. apply Z.div_unique with (r := x + 2147483648); lia.
  - apply Z.div_small; lia.
Qed.

Lemma bitwise_abs_abs x : int16 x -> MathBench.bitwise_abs x = Z.abs x.
Proof.
  intros Hx. unfold MathBench.bitwise_abs. rewrite (shiftr31_int16 x Hx).
  unfold int16 in Hx.
  destruct (Z.ltb_spec x 0).
  - change (to_int32 (-1)) with (-1).
    rewrite Z.lxor_m1_r. unfold Z.lnot, to_uint32, to_int32.
    rewrite (Z.mod_small (_ + 2147483648)) by lia.
    rewrite Z.mod_small by lia. lia.
  - change (to_int32 0) with 0.
    rewrite Z.lxor_0_r, Z.sub_0_r. unfold to_uint32, to_int32.
    rewrite (Z.mod_small (_ + 2147483648)) by lia.
    rewrite Z.mod_small by lia. lia.
Qed.

(** C9: on every signed 16-bit input [fast_abs16] agrees with the mask
    identity [(x ^ (x>>15)) - (x>>15)] of the specification (and with
    [bitwise_abs] of the benchmark), the minimum value included, which goes
    through the same computation; away from the minimum value it is the
    standard absolute value. *)
Theorem fast_abs16_standard (x : Z) :
  int16 x ->
  (x <> -32768 -> fast_abs16 x = Z.abs x)
  /\ fast_abs16 x = spec_mask_abs16 x
  /\ fast_abs16 x = MathBench.bitwise_abs x.
Proof.
  intros Hx.
  rewrite (fast_abs16_abs x Hx), (spec_mask_abs16_abs x Hx),
    (bitwise_abs_abs x Hx).
  auto.
Qed.

(** The helper on -1234. *)
Lemma fast_abs16_standard_witness :
  int16 (-1234)
  /\ ((-1234 <> -32768 -> fast_abs16 (-1234) = Z.abs (-1234))
      /\ fast_abs16 (-1234) = spec_mask_abs16 (-1234)
      /\ fast_abs16 (-1234) = MathBench.bitwise_abs (-1234)).
Proof.
  split; [unfold int16; lia | apply (fast_abs16_standard (-1234)); unfold int16; lia].
Defined.

Lemma abs16_range x : int16 x -> 0 <= Z.abs x <= 32768.
Proof. unfold int16; lia. Qed.

Lemma perm3_cases (a b c p q r : Z) :
  Permutation [a; b; c] [p; q; r] ->
  (a = p /\ (b = q /\ c = r \/ b = r /\ c = q))
  \/ (a = q /\ (b = p /\ c = r \/ b = r /\ c = p))
  \/ (a = r /\ (b = p /\ c = q \/ b = q /\ c = p)).
Proof.
  intros H.
  assert (Ha : In a [p; q; r])
    by (eapply Permutation_in; [exact H | left; reflexivity]).
  destruct Ha as [Ha | [Ha | [Ha | []]]]; subst.
  - left. split; [reflexivity|].
    apply Permutation_cons_inv, Permutation_length_2_inv in H.
    destruct H as [H | H]; inversion H; auto.
  - right; left. split; [reflexivity|].
    assert (H' : Permutation (a :: [b; c]) (a :: [p; r]))
      by (rewrite H; apply perm_swap).
    apply Permutation_cons_inv, Permutation_length_2_inv in H'.
    destruct H' as [H' | H']; inversion H'; auto.
  - right; right. split; [reflexivity|].
    assert (H' : Permutation (a :: [b; c]) (a :: [p; q]))
      by (rewrite H; symmetry; apply (Permutation_cons_append [p; q] a)).
    apply Permutation_cons_inv, Permutation_length_2_inv in H'.
    destruct H' as [H' | H']; inversion H'; auto.
Qed.

Lemma shiftr_15_16 b : Z.shiftr (15 * b) 4 = 15 * b / 16.
Proof. rewrite Z.shiftr_div_pow2 by lia. reflexivity. Qed.

Lemma shiftr_3_8 c : Z.shiftr (3 * c) 3 = 3 * c / 8.
Proof. rewrite Z.shiftr_div_pow2 by lia. reflexivity. Qed.

Lemma l2_sum_small a b c :
  0 <= a <= 32768 -> 0 <= b <= 32768 -> 0 <= c <= 32768 ->
  to_uint32 (a + 15 * b / 16 + 3 * c / 8) = a + 15 * b / 16 + 3 * c / 8.
Proof.
  intros Ha Hb Hc. unfold to_uint32. apply Z.mod_small.
  assert (0 <= 15 * b / 16 <= 30720)
    by (split; [apply Z.div_pos; lia | apply Z.div_le_upper_bound; lia]).
  assert (0 <= 3 * c / 8 <= 12288)
    by (split; [apply Z.div_pos; lia | apply Z.div_le_upper_bound; lia]).
  lia.
Qed.

(** The sorting network of [fast_l2_norm], run on the absolute values. *)
Lemma fast_l2_norm_network (r : lis2dw_reading_t) :
  reading_ok r ->
  exists a b c,
    Permutation [a; b; c] [Z.abs (rx r); Z.abs (ry r); Z.abs (rz r)]
    /\ c <= b <= a
    /\ fast_l2_norm r = a + 15 * b / 16 + 3 * c / 8.
Proof.
  intros (Hx & Hy & Hz). unfold fast_l2_norm.
  rewrite !fast_abs16_abs by assumption.
  pose proof (abs16_range _ Hx). pose proof (abs16_range _ Hy).
  pose proof (abs16_range _ Hz).
  set (p := Z.abs (rx r)) in *. set (q := Z.abs (ry r)) in *.
  set (s := Z.abs (rz r)) in *.
  unfold swap_lt.
  destruct (Z.ltb_spec p q); destruct (Z.ltb_spec p s);
    destruct (Z.ltb_spec q s);
    repeat match goal with
           | |- context [?u <? ?v] => destruct (Z.ltb_spec u v); try lia
           end;
    rewrite shiftr_15_16, shiftr_3_8, l2_sum_small by lia.
  all: match goal with
       | |- exists a b c, _ /\ _ /\ ?x + 15 * ?y / 16 + 3 * ?z / 8 = _ =>
           exists x, y, z; split; [| split; [lia | reflexivity]]
       end.
  all: try apply Permutation_refl.
  all: try (apply perm_swap).
  all: try (apply perm_skip; apply perm_swap).
  all: try (apply (Permutation_cons_append [_; _] _)).
  all: try (symmetry; apply (Permutation_cons_append [_; _] _)).
  all: try (apply (Permutation_rev [_; _; _])).
Qed.

Lemma approx_l2_norm_fast (r : lis2dw_reading_t) :
  reading_ok r ->
  MathBench.approx_l2_norm (rx r) (ry r) (rz r) = fast_l2_norm r.
Proof.
  intros (Hx & Hy & Hz). unfold MathBench.approx_l2_norm, fast_l2_norm.
  rewrite !fast_abs16_abs by assumption.
  pose proof (abs16_range _ Hx). pose proof (abs16_range _ Hy).
  pose proof (abs16_range _ Hz).
  set (p := Z.abs (rx r)) in *. set (q := Z.abs (ry r)) in *.
  set (s := Z.abs (rz r)) in *.
  assert (Hsmall : forall v, 0 <= v <= 32768 -> to_uint32 v = v)
    by (intros v Hv; unfold to_uint32; apply Z.mod_small; lia).
  assert (H15 : forall v, 0 <= v <= 32768 -> to_uint32 (15 * v) = 15 * v)
    by (intros v Hv; unfold to_uint32; apply Z.mod_small; lia).
  assert (H3 : forall v, 0 <= v <= 32768 -> to_uint32 (3 * v) = 3 * v)
    by (intros v Hv; unfold to_uint32; apply Z.mod_small; lia).
  rewrite !Hsmall by assumption.
  unfold swap_lt.
  repeat match goal with
         | |- context [?u <? ?v] => destruct (Z.ltb_spec u v)
         end;
    rewrite H15, H3 by assumption; reflexivity.
Qed.

(** C5: for every reading of three signed 16-bit axes, and for the absolute
    values of its axes arranged as [a >= b >= c], [fast_l2_norm] is
    [a + ((15 * b) >> 4) + ((3 * c) >> 3)], that is
    [a + floor (15 b / 16) + floor (3 c / 8)], and it agrees with the reference
    [approx_l2_norm]. *)
Theorem fast_l2_norm_sorted_formula (r : lis2dw_reading_t) (a b c : Z) :
  reading_ok r ->
  Permutation [a; b; c] [Z.abs (rx r); Z.abs (ry r); Z.abs (rz r)] ->
  c <= b <= a ->
  fast_l2_norm r = a + Z.shiftr (15 * b) 4 + Z.shiftr (3 * c) 3
  /\ fast_l2_norm r = spec_l2_formula a b c
  /\ fast_l2_norm r = MathBench.approx_l2_norm (rx r) (ry r) (rz r).
Proof.
  intros Hr Hperm Hsorted.
  rewrite (approx_l2_norm_fast r Hr), shiftr_15_16, shiftr_3_8.
  unfold spec_l2_formula.
  destruct (fast_l2_norm_network r Hr) as (a' & b' & c' & Hperm' & Hsorted' & ->).
  assert (Hp : Permutation [a; b; c] [a'; b'; c'])
    by (etransitivity; [exact Hperm | symmetry; exact Hperm']).
  assert (a = a' /\ b = b' /\ c = c') as (-> & -> & ->)
    by (apply perm3_cases in Hp; lia).
  auto.
Qed.

(** The reading (-300, 4000, -25), whose absolute values sort to
    4000, 300, 25. *)
Lemma fast_l2_norm_sorted_formula_witness :
  let r := mk_reading (-300) 4000 (-25) in
  reading_ok r
  /\ Permutation [4000; 300; 25] [Z.abs (rx r); Z.abs (ry r); Z.abs (rz r)]
  /\ 25 <= 300 <= 4000
  /\ fast_l2_norm r = 4000 + Z.shiftr (15 * 300) 4 + Z.shiftr (3 * 25) 3
  /\ fast_l2_norm r = spec_l2_formula 4000 300 25
  /\ fast_l2_norm r = MathBench.approx_l2_norm (rx r) (ry r) (rz r).
Proof.
  intros r.
  assert (Hr : reading_ok r) by (unfold reading_ok, int16; simpl; lia).
  assert (Hp : Permutation [4000; 300; 25]
                           [Z.abs (rx r); Z.abs (ry r); Z.abs (rz r)])
    by (simpl; apply perm_swap).
  assert (Hs : 25 <= 300 <= 4000) by lia.
  split; [exact Hr | split; [exact Hp | split; [exact Hs |]]].
  apply (fast_l2_norm_sorted_formula r 4000 300 25 Hr Hp Hs).
Defined.

Lemma l2_bound_core a b c :
  0 <= a -> 0 <= b -> 0 <= c ->
  256 * (a + 15 * b / 16 + 3 * c / 8) ^ 2 <= 517 * (a ^ 2 + b ^ 2 + c ^ 2).
Proof.
  intros Ha Hb Hc.
  pose proof (Z.mul_div_le (15 * b) 16 ltac:(lia)) as Hu.
  pose proof (Z.mul_div_le (3 * c) 8 ltac:(lia)) as Hv.
  assert (0 <= 15 * b / 16) by (apply Z.div_pos; lia).
  assert (0 <= 3 * c / 8) by (apply Z.div_pos; lia).
  set (u := 15 * b / 16) in *. set (v := 3 * c / 8) in *.
  set (n := a + u + v).
  assert (Hn : 0 <= 16 * n <= 16 * a + 15 * b + 6 * c) by (unfold n; lia).
  assert (Hsq : (16 * n) ^ 2 <= (16 * a + 15 * b + 6 * c) ^ 2)
    by (apply Z.pow_le_mono_l; lia).
  assert (Hcs : (16 * a + 15 * b + 6 * c) ^ 2
                = 517 * (a ^ 2 + b ^ 2 + c ^ 2)
                  - ((15 * a - 16 * b) ^ 2 + (6 * a - 16 * c) ^ 2
                     + (6 * b - 15 * c) ^ 2)) by ring.
  pose proof (Z.pow_nonneg (15 * a - 16 * b) 2).
  pose proof (Z.pow_even_nonneg (15 * a - 16 * b) 2 ltac:(exists 1; reflexivity)).
  pose proof (Z.pow_even_nonneg (6 * a - 16 * c) 2 ltac:(exists 1; reflexivity)).
  pose proof (Z.pow_even_nonneg (6 * b - 15 * c) 2 ltac:(exists 1; reflexivity)).
  replace (256 * n ^ 2) with ((16 * n) ^ 2) by ring.
  lia.
Qed.

(** C6, as the code has it: for every reading of three signed 16-bit axes
    (the minimum value included) the square of [fast_l2_norm] is at most
    517/256 times the sum of the squares of the axes, so the result exceeds
    the Euclidean norm by at most about 42.1 percent; and when two axes are
    zero the result is the absolute value of the third. *)
Theorem fast_l2_norm_bound (r : lis2dw_reading_t) :
  reading_ok r ->
  256 * fast_l2_norm r ^ 2 <= 517 * (rx r ^ 2 + ry r ^ 2 + rz r ^ 2)
  /\ (ry r = 0 -> rz r = 0 -> fast_l2_norm r = Z.abs (rx r))
  /\ (rx r = 0 -> rz r = 0 -> fast_l2_norm r = Z.abs (ry r))
  /\ (rx r = 0 -> ry r = 0 -> fast_l2_norm r = Z.abs (rz r)).
Proof.
  intros Hr.
  destruct (fast_l2_norm_network r Hr) as (a & b & c & Hperm & Hsorted & Hn).
  destruct Hr as (Hx & Hy & Hz).
  pose proof (abs16_range _ Hx) as Hp. pose proof (abs16_range _ Hy) as Hq.
  pose proof (abs16_range _ Hz) as Hs.
  assert (Hsq : rx r ^ 2 + ry r ^ 2 + rz r ^ 2
                = Z.abs (rx r) ^ 2 + Z.abs (ry r) ^ 2 + Z.abs (rz r) ^ 2)
    by (rewrite !Z.pow_2_r, !Z.abs_square; reflexivity).
  assert (Zx : rx r = 0 -> Z.abs (rx r) = 0) by lia.
  assert (Zy : ry r = 0 -> Z.abs (ry r) = 0) by lia.
  assert (Zz : rz r = 0 -> Z.abs (rz r) = 0) by lia.
  rewrite Hn, Hsq. clear Hn Hsq Hx Hy Hz.
  set (p := Z.abs (rx r)) in *. set (q := Z.abs (ry r)) in *.
  set (s := Z.abs (rz r)) in *. clearbody p q s.
  apply perm3_cases in Hperm.
  assert (Hb : 256 * (a + 15 * b / 16 + 3 * c / 8) ^ 2
               <= 517 * (a ^ 2 + b ^ 2 + c ^ 2))
    by (apply l2_bound_core; lia).
  destruct Hperm as [(-> & [(-> & ->) | (-> & ->)])
                    | [(-> & [(-> & ->) | (-> & ->)])
                      | (-> & [(-> & ->) | (-> & ->)])]].
  all: split;
    [ etransitivity; [exact Hb | apply Z.eq_le_incl; ring]
    | clear Hb; repeat split; intros H2 H3;
      first [apply Zx in H2 | apply Zy in H2 | apply Zz in H2];
      first [apply Zy in H3 | apply Zz in H3 | apply Zx in H3];
      clear Zx Zy Zz; Z.div_mod_to_equations; lia ].
Qed.

(** The bound is attained on the reading (256, -240, 96). *)
Lemma fast_l2_norm_bound_witness :
  let r := mk_reading 256 (-240) 96 in
  reading_ok r
  /\ 256 * fast_l2_norm r ^ 2 = 517 * (rx r ^ 2 + ry r ^ 2 + rz r ^ 2)
  /\ 256 * fast_l2_norm r ^ 2 <= 517 * (rx r ^ 2 + ry r ^ 2 + rz r ^ 2).
Proof.
  intros r.
  assert (Hr : reading_ok r) by (unfold reading_ok, int16; simpl; lia).
  split; [exact Hr | split; [reflexivity | apply (fast_l2_norm_bound r Hr)]].
Defined.

(** C6, as stated, fails: on the reading (16, 15, 6), none of whose axes is
    the minimum value, [fast_l2_norm] is 32 while the Euclidean norm is
    [sqrt 517 < 23]; the bound of 6 percent fails, and so does one of 40
    percent. *)
Lemma fast_l2_norm_exceeds_six_percent :
  let r := mk_reading 16 15 6 in
  reading_ok r
  /\ rx r <> -32768 /\ ry r <> -32768 /\ rz r <> -32768
  /\ fast_l2_norm r = 32
  /\ ~ 10000 * fast_l2_norm r ^ 2 <= 11236 * (rx r ^ 2 + ry r ^ 2 + rz r ^ 2)
  /\ 19600 * (rx r ^ 2 + ry r ^ 2 + rz r ^ 2) < 10000 * fast_l2_norm r ^ 2.
Proof.
  intros r. unfold reading_ok, int16.
  change (fast_l2_norm r) with 32. simpl. lia.
Qed.

(** ** Bytes and ranges *)

Lemma land_255 z : Z.land z 255 = z mod 256.
Proof. change 255 with (Z.ones 8). rewrite Z.land_ones by lia. reflexivity. Qed.

Lemma le_bytes_length (n : nat) : forall z, length (le_bytes n z) = n.
Proof. induction n as [| n IH]; intros z; simpl; [| rewrite IH]; reflexivity. Qed.

Lemma le_bytes_value (n : nat) :
  forall z, le_value (le_bytes n z) = z mod 2 ^ (8 * Z.of_nat n).
Proof.
  induction n as [| n IH]; intros z.
  - simpl. rewrite Z.mod_1_r. reflexivity.
  - cbn [le_bytes le_value]. rewrite IH, land_255, Z.shiftr_div_pow2 by lia.
    change (2 ^ 8) with 256.
    replace (8 * Z.of_nat (S n)) with (8 + 8 * Z.of_nat n) by lia.
    rewrite Z.pow_add_r by lia. change (2 ^ 8) with 256.
    rewrite Z.rem_mul_r by lia. reflexivity.
Qed.

(** A signed 16-bit value is read back from its two bytes by sign
    extension, an unsigned one as it is. *)
Lemma le_bytes_int16 (z : Z) :
  int16 z -> to_int16 (le_value (le_bytes 2 z)) = z.
Proof.
  intros Hz. rewrite le_bytes_value. change (2 ^ (8 * Z.of_nat 2)) with 65536.
  unfold to_int16, int16 in *. Z.div_mod_to_equations. lia.
Qed.

Lemma le_bytes_uint16 (z : Z) : uint16 z -> le_value (le_bytes 2 z) = z.
Proof.
  intros Hz. rewrite le_bytes_value. change (2 ^ (8 * Z.of_nat 2)) with 65536.
  unfold uint16 in Hz. apply Z.mod_small. lia.
Qed.

Lemma le_bytes_uint32 (z : Z) : le_value (le_bytes 4 (to_uint32 z)) = to_uint32 z.
Proof.
  rewrite le_bytes_value. change (2 ^ (8 * Z.of_nat 4)) with 4294967296.
  unfold to_uint32. apply Z.mod_mod. lia.
Qed.

Lemma fast_l1_norm_abs (r : lis2dw_reading_t) :
  reading_ok r ->
  fast_l1_norm r = Z.abs (rx r) + Z.abs (ry r) + Z.abs (rz r).
Proof.
  intros (Hx & Hy & Hz). unfold fast_l1_norm.
  rewrite !fast_abs16_abs by assumption.
  pose proof (abs16_range _ Hx). pose proof (abs16_range _ Hy).
  pose proof (abs16_range _ Hz).
  unfold to_uint32. apply Z.mod_small. lia.
Qed.

Lemma fast_l2_norm_range (r : lis2dw_reading_t) :
  reading_ok r -> 0 <= fast_l2_norm r <= 98304.
Proof.
  intros Hr.
  destruct (fast_l2_norm_network r Hr) as (a & b & c & Hperm & Hsorted & ->).
  destruct Hr as (Hx & Hy & Hz).
  pose proof (abs16_range _ Hx) as Hp. pose proof (abs16_range _ Hy) as Hq.
  pose proof (abs16_range _ Hz) as Hs.
  apply perm3_cases in Hperm.
  assert (Hc : 0 <= c /\ b <= 32768 /\ a <= 32768)
    by (destruct Hperm as [(-> & [(-> & ->) | (-> & ->)])
                          | [(-> & [(-> & ->) | (-> & ->)])
                            | (-> & [(-> & ->) | (-> & ->)])]]; lia).
  clear Hperm Hp Hq Hs.
  Z.div_mod_to_equations. lia.
Qed.

(** The three bytes of the magnitude of a reading give it back. *)
Lemma mag_buffer_norm (r : lis2dw_reading_t) (l1 : bool) :
  reading_ok r ->
  le_value (mag_buffer (if l1 then fast_l1_norm r else fast_l2_norm r))
  = (if l1 then fast_l1_norm r else fast_l2_norm r).
Proof.
  intros Hr.
  assert (Hval : forall v, 0 <= v <= 98304 -> le_value (mag_buffer v) = v).
  { intros v Hv. unfold mag_buffer, le_value, to_uint8.
    rewrite !land_255, Z.shiftr_0_r, !Z.shiftr_div_pow2 by lia.
    change (2 ^ 8) with 256. change (2 ^ 16) with 65536.
    Z.div_mod_to_equations. lia. }
  destruct l1; apply Hval.
  - rewrite (fast_l1_norm_abs r Hr). destruct Hr as (Hx & Hy & Hz).
    pose proof (abs16_range _ Hx). pose proof (abs16_range _ Hy).
    pose proof (abs16_range _ Hz). lia.
  - apply fast_l2_norm_range. exact Hr.
Qed.

(** ** The face *)

Section FaceProperties.

Context {P : Platform}.

Local Arguments _log_data : simpl never.

Lemma wp_run {A} (c : M A) (Q : machine -> Prop) (m : machine) :
  wp c (fun _ m' => Q m') m -> Q (run c m).
Proof. exact (fun H => H). Qed.

Lemma wp_bind {A B} (c : M A) (k : A -> M B) Q (m : machine) :
  wp c (fun a m' => wp (k a) Q m') m -> wp (bind c k) Q m.
Proof. exact (fun H => H). Qed.

Lemma wp_ret {A} (a : A) (Q : A -> machine -> Prop) (m : machine) :
  Q a m -> wp (ret a) Q m.
Proof. exact (fun H => H). Qed.

Lemma wp_gets {A} (f : machine -> A) (Q : A -> machine -> Prop) (m : machine) :
  Q (f m) m -> wp (gets f) Q m.
Proof. exact (fun H => H). Qed.

Lemma wp_puts (f : machine -> machine) (Q : unit -> machine -> Prop)
      (m : machine) :
  Q tt (f m) -> wp (puts f) Q m.
Proof. exact (fun H => H). Qed.

Lemma wp_act {A} (f : world -> A * world) (c : A -> call)
      (Q : A -> machine -> Prop) (m : machine) :
  Q (fst (f (env m)))
    (with_trace (trace m ++ [c (fst (f (env m)))])
                (with_env (snd (f (env m))) m)) ->
  wp (act f c) Q m.
Proof. exact (fun H => H). Qed.

Lemma wp_act_ (f : world -> world) (c : call)
      (Q : unit -> machine -> Prop) (m : machine) :
  Q tt (with_trace (trace m ++ [c]) (with_env (f (env m)) m)) ->
  wp (act_ f c) Q m.
Proof. exact (fun H => H). Qed.

(** Turn the recorded outcomes of tests into propositions. *)
Ltac tests :=
  repeat match goal with
         | H : negb _ = true |- _ => apply negb_true_iff in H
         | H : negb _ = false |- _ => apply negb_false_iff in H
         | H : (_ =? _) = true |- _ => apply Z.eqb_eq in H
         | H : (_ =? _) = false |- _ => apply Z.eqb_neq in H
         | H : (_ <? _) = true |- _ => apply Z.ltb_lt in H
         | H : (_ <? _) = false |- _ => apply Z.ltb_ge in H
         end.

(** Reduce the projections of the records on explicit values. *)
Ltac norm :=
  cbv beta;
  cbn [state env trace chirp_data_ptr chirp_data_ix chirp_data_len
       start_ts data_type index error steps page chirpy_tick_state
       chirpy_encoder_state chirping tick_count tick_compare seq_pos tick_fun
       with_start_ts with_data_type with_index with_error with_steps with_page
       with_tick_state with_encoder_state with_chirping
       with_tick_count with_tick_compare with_seq_pos with_tick_fun
       with_state with_ptr with_ix with_len with_env with_trace
       fst snd negb].

Ltac head t := lazymatch t with ?f _ => head f | _ => t end.

(** Use what is known of the page, the event and the tick function. *)
Ltac known :=
  match goal with
  | H : page _ = _ |- _ => rewrite H
  | H : event_type _ = _ |- _ => rewrite H
  | H : tick_fun _ = _ |- _ => rewrite H
  end.

(** Run the first statement of the computation under [wp]; a test is
    followed both ways unless the hypotheses exclude one. *)
Ltac wp_step :=
  lazymatch goal with
  | |- wp (bind _ _) _ _ => apply wp_bind
  | |- wp (ret _) _ _ => apply wp_ret
  | |- wp (gets _) _ _ => apply wp_gets
  | |- wp (puts _) _ _ => apply wp_puts
  | |- wp (act _ _) _ _ => apply wp_act
  | |- wp (act_ _ _) _ _ => apply wp_act_
  | |- wp (if ?c then _ else _) _ _ =>
      destruct c eqn:?;
      try solve [exfalso; tests; first [congruence | lia]]
  | |- wp (fun _ => _) _ _ => unfold wp at 1
  | |- wp ?c _ _ => first [let h := head c in unfold h | known]
  end;
  norm.

Ltac wp_run_all :=
  match goal with
  | |- context [run ?c ?m] => pattern (run c m); apply wp_run
  end;
  repeat wp_step.

(** C10: if the write of the marker byte or the write of the two bytes of
    the step count is short, [_log_steps] sets the error WriteData, leaves
    the pending step count as it was and returns without a call to
    [lfs_file_close]; when the open had succeeded the handle is left open. *)
Theorem log_steps_short_write (m : machine) :
  let m1 := run _log_open m in
  let w1 := lfs_file_write [LOG_FILE_MARKER] (env m1) in
  let w2 := lfs_file_write (le_bytes 2 (steps (state m))) (snd w1) in
  to_uint32 (fst w1) <> 1 \/ to_uint32 (fst w2) <> 2 ->
  let m' := run _log_steps m in
  error (state m') = ERROR_WRITE_DATA
  /\ steps (state m') = steps (state m)
  /\ (exists post, trace m' = trace m1 ++ post /\ filter is_close post = [])
  /\ (0 <= fst (lfs_file_open (env m)) ->
      forall o, handle_after o (trace m') = true).
Proof.
  intros m1 w1 w2 Hshort m'.
  assert (Hm1 : env m1 = snd (lfs_file_open (env m))
                /\ trace m1
                   = trace m ++ [lfs_file_open_call (fst (lfs_file_open (env m)))]).
  { subst m1. wp_run_all; split; reflexivity. }
  destruct Hm1 as (Henv & Htrace).
  subst w2 w1. rewrite Henv in Hshort. rewrite Htrace. clear Henv Htrace m1.
  subst m'. wp_run_all.
  all: tests; try lia.
  all: repeat split; try reflexivity.
  all: try (eexists; split; [rewrite <- ?app_assoc; reflexivity | reflexivity]).
  all: intros Hopen o; unfold handle_after; rewrite !fold_left_app;
    cbn [fold_left].
  all: destruct (Z.ltb_spec (fst (lfs_file_open (env m))) 0);
    [lia | reflexivity].
Qed.

(** C7: when the encoder answers the sentinel tone 255,
    [_chirp_tick_transmit] clears the bell, stops the buzzer, requests a
    tick frequency of 1 Hz, clears the chirping flag, frees the buffer if
    there is one and resets pointer, cursor and length. *)
Theorem transmit_sentinel_teardown (m : machine) :
  let r := chirpy_get_next_tone machine _chirp_next_byte
             (chirpy_encoder_state (state m)) m in
  to_uint8 (fst (fst r)) = 255 ->
  let m' := run _chirp_tick_transmit m in
  chirping (state m') = false
  /\ chirp_data_ptr m' = 0 /\ chirp_data_ix m' = 0 /\ chirp_data_len m' = 0
  /\ trace m'
     = trace (snd r) ++ [chirpy_get_next_tone_call 255] ++ quit_calls
         ++ (if chirp_data_ptr (snd r) =? 0 then []
             else [free_call (chirp_data_ptr (snd r))])
  /\ env m' = (if chirp_data_ptr (snd r) =? 0 then env (snd r)
               else free (chirp_data_ptr (snd r)) (env (snd r)))
  /\ (forall b, buzzer_after b (trace m') = false)
  /\ (forall f, tick_frequency_after f (trace m') = 1).
Proof.
  intros r Htone m'. subst m'. unfold quit_calls.
  unfold r in *. clear r.
  wp_run_all.
  all: tests; try congruence.
  all: rewrite Htone.
  all: match goal with
       | H : chirp_data_ptr _ = 0 |- _ =>
           rewrite H; change (0 =? 0) with true
       | H : chirp_data_ptr _ <> 0 |- _ =>
           apply Z.eqb_neq in H; rewrite H
       end.
  all: repeat split; rewrite <- ?app_assoc; try reflexivity.
  all: intros; unfold buzzer_after, tick_frequency_after;
    rewrite !fold_left_app; reflexivity.
Qed.

(** C8: [_chirp_quit] leaves the scheduler at rest whatever the machine it
    is called on; called on a machine at rest it changes neither the
    context, nor the statics, nor the world, and frees nothing; so a second
    call right after a first one yields the same state, and the two calls
    together free the buffer at most once. *)
Theorem chirp_quit_idempotent (m : machine) :
  let m1 := run _chirp_quit m in
  let m2 := run _chirp_quit m1 in
  let i := run _chirp_quit (at_rest m) in
  (chirping (state m1) = false
   /\ chirp_data_ptr m1 = 0 /\ chirp_data_ix m1 = 0 /\ chirp_data_len m1 = 0
   /\ (forall b, buzzer_after b (trace m1) = false)
   /\ (forall f, tick_frequency_after f (trace m1) = 1))
  /\ (state m2 = state m1
      /\ chirp_data_ptr m2 = 0 /\ chirp_data_ix m2 = 0 /\ chirp_data_len m2 = 0
      /\ env m2 = env m1
      /\ trace m2 = trace m1 ++ quit_calls
      /\ (forall b, buzzer_after b (trace m2) = false)
      /\ (forall f, tick_frequency_after f (trace m2) = 1))
  /\ (exists post, trace m2 = trace m ++ post
                   /\ filter is_free post
                      = if chirp_data_ptr m =? 0 then []
                        else [free_call (chirp_data_ptr m)])
  /\ (state i = state (at_rest m)
      /\ chirp_data_ptr i = 0 /\ chirp_data_ix i = 0 /\ chirp_data_len i = 0
      /\ env i = env m
      /\ trace i = trace m ++ quit_calls).
Proof.
  intros m1 m2 i.
  assert (Hrest : forall x : machine,
             chirp_data_ptr x = 0 ->
             run _chirp_quit x
             = mk_machine (with_chirping false (state x)) 0 0 0 (env x)
                          (trace x ++ quit_calls)).
  { intros x Hx. unfold quit_calls. wp_run_all; tests; try congruence.
    rewrite <- !app_assoc. reflexivity. }
  assert (Hm1 : m1 = mk_machine
                       (with_chirping false (state m)) 0 0 0
                       (if chirp_data_ptr m =? 0 then env m
                        else free (chirp_data_ptr m) (env m))
                       (trace m ++ quit_calls
                          ++ if chirp_data_ptr m =? 0 then []
                             else [free_call (chirp_data_ptr m)])).
  { subst m1. unfold quit_calls. wp_run_all; tests.
    all: match goal with
         | H : chirp_data_ptr _ = 0 |- _ =>
             rewrite H; change (0 =? 0) with true
         | H : chirp_data_ptr _ <> 0 |- _ =>
             apply Z.eqb_neq in H; rewrite H
         end.
    all: rewrite <- !app_assoc; reflexivity. }
  subst m2 i. rewrite Hm1. rewrite !Hrest by reflexivity.
  unfold at_rest, quit_calls. norm.
  repeat split; try reflexivity.
  all: try (intros; unfold buzzer_after, tick_frequency_after;
            rewrite !fold_left_app;
            destruct (chirp_data_ptr m =? 0); reflexivity).
  eexists. split; [rewrite <- !app_assoc; reflexivity |].
  destruct (chirp_data_ptr m =? 0); reflexivity.
Qed.

(** C4, as the code has it: on the labeling page the light button takes
    one step off the count and stops at zero; the alarm button adds ten.
    The header of the face documents the opposite assignment (alarm adds
    one, light takes off ten). *)
Theorem labeling_light_button_down (m : machine) (e : movement_event_t) :
  page (state m) = PAGE_LABELING ->
  event_type e = EVENT_LIGHT_BUTTON_DOWN ->
  uint16 (steps (state m)) ->
  let m' := run (stepcounter_logging_face_loop e) m in
  steps (state m') = Z.max (steps (state m) - 1) 0
  /\ 0 <= steps (state m')
  /\ page (state m') = PAGE_LABELING.
Proof.
  intros Hpage Hev Hsteps m'. subst m'. unfold uint16 in Hsteps.
  wp_run_all.
  destruct (Z.ltb_spec 0 (steps (state m))).
  - unfold to_uint16. rewrite Z.mod_small by lia.
    split; [lia | split; [lia | assumption]].
  - split; [lia | split; [lia | assumption]].
Qed.

(** C3, the behaviour of the code: when no recording is active and the
    alarm button is released on the recording page, a failing
    [lfs_file_open] does not stop [_start_recording]: [start_ts] takes the
    time of the clock, nonzero unless the clock reads zero, although the
    handle was not opened. *)
Theorem start_recording_open_failure (m : machine) (e : movement_event_t) :
  event_type e = EVENT_ALARM_BUTTON_UP ->
  page (state m) = PAGE_RECORDING ->
  start_ts (state m) = 0 ->
  let w := lis2dw_clear_fifo (env m) in
  fst (lfs_file_open w) < 0 ->
  to_uint32 (rtc_unix_time (snd (lfs_file_open w))) <> 0 ->
  let m' := run (stepcounter_logging_face_loop e) m in
  start_ts (state m') <> 0
  /\ page (state m') = PAGE_RECORDING
  /\ exists post, trace m' = trace m ++ post
                  /\ handle_after false post = false.
Proof.
  intros Hev Hpage Hts w Hopen Hclock m'. subst m' w.
  wp_run_all.
  all: (split; [assumption | split; [assumption |]]).
  all: eexists; split; [rewrite <- ?app_assoc; reflexivity |].
  all: apply Z.ltb_lt in Hopen.
  all: unfold handle_after; cbn [fold_left app]; rewrite ?Hopen; reflexivity.
Qed.

(** C2, the behaviour of the code: when the tick function fires at the
    end of the countdown and the load of the log file fails, the error code
    of the failure is stored, but the attempt is not given up: the
    scheduler has entered the transmit phase ([tick_fun] is
    [_chirp_tick_transmit], [chirping] is still set), no tick frequency is
    requested and nothing is freed. *)
Theorem countdown_end_load_failure
        (m : machine) (e : movement_event_t) (code : Z) :
  page (state m) = PAGE_CHIRPING ->
  event_type e = EVENT_TICK ->
  chirping (state m) = true ->
  to_uint8 (tick_count (chirpy_tick_state (state m)) + 1)
  = tick_compare (chirpy_tick_state (state m)) ->
  tick_fun (chirpy_tick_state (state m)) = tick_fun_countdown ->
  seq_pos (chirpy_tick_state (state m)) = 24 ->
  load_failure (env m) code ->
  let m' := run (stepcounter_logging_face_loop e) m in
  error (state m') = code
  /\ chirping (state m') = true
  /\ tick_fun (chirpy_tick_state (state m')) = tick_fun_transmit
  /\ tick_compare (chirpy_tick_state (state m')) = 3
  /\ exists post, trace m' = trace m ++ post
                  /\ (forall f, tick_frequency_after f post = f)
                  /\ filter is_free post = [].
Proof.
  intros Hpage Hev Hchirping Hfire Hfun Hpos Hload m'. subst m'.
  destruct Hload as [Hmiss | Hfile Hmem | Hfile len a Hmem Hread];
    [| | subst len a].
  all: wp_run_all.
  all: repeat split; try reflexivity; try assumption.
  all: eexists; split;
    [rewrite <- ?app_assoc; reflexivity | split; reflexivity].
Qed.

Lemma log_data_reading_state (dt : Z) (r : lis2dw_reading_t) (m : machine) :
  state (snd (_log_data_reading dt r m)) = state m.
Proof.
  change (state (run (_log_data_reading dt r) m) = state m).
  wp_run_all; reflexivity.
Qed.

Lemma log_data_loop_state (fifo : lis2dw_fifo_t) (todo : nat) :
  forall (cnt : Z) (m : machine),
    state (snd (_log_data_loop fifo todo cnt m)) = state m.
Proof.
  induction todo as [| todo IH]; intros cnt m; cbn [_log_data_loop].
  - reflexivity.
  - unfold bind, get, gets. norm.
    destruct (fst (_log_data_reading _ _ m)).
    + rewrite IH. apply log_data_reading_state.
    + unfold ret. norm. apply log_data_reading_state.
Qed.

(** [_log_data] touches no field of the context but [error]. *)
Lemma log_data_state (fifo : lis2dw_fifo_t) (m : machine) :
  let m' := run (_log_data fifo) m in
  start_ts (state m') = start_ts (state m)
  /\ index (state m') = index (state m)
  /\ page (state m') = page (state m).
Proof.
  unfold _log_data, run, bind, file_write, act, modify, puts, ret.
  destruct (count fifo =? 0); norm; [auto |].
  destruct (negb _); norm; [auto |].
  match goal with
  | |- context [_log_data_loop ?f ?n ?c ?x] =>
      pose proof (log_data_loop_state f n c x) as Hloop;
      destruct (_log_data_loop f n c x) as [ok x']
  end.
  norm. cbn [fst snd] in Hloop. destruct ok; norm; rewrite Hloop; norm; auto.
Qed.

Lemma writes_app (t1 t2 : list call) :
  writes (t1 ++ t2) = writes t1 ++ writes t2.
Proof. unfold writes. apply filter_app. Qed.

(** *** Further properties of the log writer *)

Lemma filter_app_nil_l {A} (f : A -> bool) (l1 l2 : list A) :
  filter f l1 = [] -> filter f (l1 ++ l2) = filter f l2.
Proof. intros H. rewrite filter_app, H. reflexivity. Qed.

(** X7: [_stop_recording] always ends the session: [start_ts] is reset,
    [index] goes up by one modulo 256, the file is synced and closed once,
    and neither the result of the close nor anything else changes the error
    code, the page or the pending steps. *)
Theorem stop_recording_effect (m : machine) :
  let m' := run _stop_recording m in
  start_ts (state m') = 0
  /\ index (state m') = (index (state m) + 1) mod 256
  /\ error (state m') = error (state m)
  /\ page (state m') = page (state m)
  /\ steps (state m') = steps (state m)
  /\ env m' = snd (lfs_file_close (lfs_file_sync (env m)))
  /\ exists post, trace m' = trace m ++ post
                  /\ filter touches_storage post
                     = [lfs_file_sync_call;
                        lfs_file_close_call
                          (fst (lfs_file_close (lfs_file_sync (env m))))].
Proof.
  intros m'. subst m'. wp_run_all.
  all: repeat split; try reflexivity.
  all: eexists; split; [rewrite <- ?app_assoc; reflexivity | reflexivity].
Qed.

(** X8: [_start_recording] sets [start_ts] to the time of the clock and
    issues all six header writes in order (magic 0x23 0x42, version 1, the
    sensor state as [lis2dw_get_state] gives it after the first two writes,
    the data type, the index, the four bytes of the start time), whatever
    the results of the open and of the earlier writes; it never closes the
    file.  When the open succeeds, the sensor state has the expected size
    and every write is complete, the error code is left as it was. *)
Theorem start_recording_header (m : machine) :
  let m' := run _start_recording m in
  let w := snd (lfs_file_open (lis2dw_clear_fifo (env m))) in
  let ds := lis2dw_get_state
              (snd (lfs_file_write [1] (snd (lfs_file_write [35; 66] w)))) in
  start_ts (state m') = to_uint32 (rtc_unix_time w)
  /\ index (state m') = index (state m)
  /\ page (state m') = page (state m)
  /\ exists post,
      trace m' = trace m ++ post
      /\ write_buffers post
         = [ [35; 66]; [1]; ds;
             [Z.land (data_type (state m)) 255];
             [Z.land (index (state m)) 255];
             le_bytes 4 (start_ts (state m')) ]
      /\ filter is_close post = []
      /\ (0 <= fst (lfs_file_open (lis2dw_clear_fifo (env m))) ->
          Z.of_nat (length ds) = sizeof_device_state ->
          writes_full post = true ->
          error (state m') = error (state m)).
Proof.
  intros m' w ds. subst m' w ds. wp_run_all.
  all: repeat split; try reflexivity.
  all: eexists; split; [rewrite <- ?app_assoc; reflexivity |].
  all: split; [reflexivity | split; [reflexivity |]].
  all: intros Hopen Hsize Hfull; tests; try lia; try reflexivity.
  all: exfalso.
  all: change (le_bytes 1 LOG_VERSION) with [1] in *;
    change (le_bytes 2 LOG_MAGIC_BYTES) with [35; 66] in *.
  all: unfold writes_full in Hfull;
    cbn [forallb app] in Hfull;
    rewrite ?andb_true_r in Hfull;
    repeat (apply andb_prop in Hfull; destruct Hfull as (? & Hfull));
    tests; rewrite ?le_bytes_length in *; cbn [length] in *.
  all: match goal with
       | H : to_uint32 _ <> to_uint32 _ |- _ => apply H; f_equal; lia
       end.
Qed.

(** X9: on the labeling page the release of the mode button commits the
    steps: when the marker byte and the two bytes of the step count are
    written in full, the two writes carry 0xff and the step count least
    significant byte first, the file is synced and closed after them, the
    pending count is reset to 0 and the face is back on the recording page
    at 1 Hz. *)
Theorem labeling_commit_steps (m : machine) (e : movement_event_t) :
  page (state m) = PAGE_LABELING ->
  event_type e = EVENT_MODE_BUTTON_UP ->
  let w0 := snd (lfs_file_open (env m)) in
  let w1 := lfs_file_write [LOG_FILE_MARKER] w0 in
  let w2 := lfs_file_write (le_bytes 2 (steps (state m))) (snd w1) in
  to_uint32 (fst w1) = 1 ->
  to_uint32 (fst w2) = 2 ->
  let m' := run (stepcounter_logging_face_loop e) m in
  steps (state m') = 0
  /\ page (state m') = PAGE_RECORDING
  /\ error (state m')
     = (if fst (lfs_file_open (env m)) <? 0 then ERROR_OPEN_FILE
        else error (state m))
  /\ exists post,
      trace m' = trace m ++ post
      /\ write_buffers post = [[255]; le_bytes 2 (steps (state m))]
      /\ filter is_close post
         = [lfs_file_close_call (fst (lfs_file_close (lfs_file_sync (snd w2))))]
      /\ handle_after true post = false
      /\ forall f, tick_frequency_after f post = 1.
Proof.
  intros Hpage Hev w0 w1 w2 H1 H2 m'. subst m' w2 w1 w0.
  wp_run_all.
  all: tests; try congruence.
  all: repeat split; try reflexivity.
  all: eexists; split; [rewrite <- ?app_assoc; reflexivity |].
  all: repeat split; try reflexivity.
  all: unfold handle_after; cbn [fold_left app];
    repeat match goal with
           | |- context [?x <? 0] => destruct (x <? 0)
           end; reflexivity.
Qed.

(** X10: on the labeling page the release of the mode button always leads
    back to the recording page with a request for 1 Hz ticks, whether the
    commit succeeds or not; the session index and [start_ts] are not
    touched, and the pending count is either reset or kept. *)
Theorem labeling_mode_button_leaves (m : machine) (e : movement_event_t) :
  page (state m) = PAGE_LABELING ->
  event_type e = EVENT_MODE_BUTTON_UP ->
  let m' := run (stepcounter_logging_face_loop e) m in
  page (state m') = PAGE_RECORDING
  /\ index (state m') = index (state m)
  /\ start_ts (state m') = start_ts (state m)
  /\ (steps (state m') = 0 \/ steps (state m') = steps (state m))
  /\ exists post, trace m' = trace m ++ post
                  /\ forall f, tick_frequency_after f post = 1.
Proof.
  intros Hpage Hev m'. subst m'. wp_run_all.
  all: repeat split; try reflexivity; auto.
  all: eexists; split; [rewrite <- ?app_assoc; reflexivity |].
  all: intros; reflexivity.
Qed.

Ltac norm_in H :=
  cbv beta in H;
  cbn [state env trace chirp_data_ptr chirp_data_ix chirp_data_len
       start_ts data_type index error steps page chirpy_tick_state
       chirpy_encoder_state chirping tick_count tick_compare seq_pos tick_fun
       with_start_ts with_data_type with_index with_error with_steps with_page
       with_tick_state with_encoder_state with_chirping
       with_tick_count with_tick_compare with_seq_pos with_tick_fun
       with_state with_ptr with_ix with_len with_env with_trace
       fst snd negb] in H.

Lemma forallb_app_true {A} (f : A -> bool) (l1 l2 : list A) :
  forallb f l1 = true -> forallb f l2 = true -> forallb f (l1 ++ l2) = true.
Proof. intros H1 H2. rewrite forallb_app, H1, H2. reflexivity. Qed.

Lemma write_buffers_app (t1 t2 : list call) :
  write_buffers (t1 ++ t2) = write_buffers t1 ++ write_buffers t2.
Proof. unfold write_buffers. apply flat_map_app. Qed.

Lemma writes_full_app (t1 t2 : list call) :
  writes_full (t1 ++ t2) = writes_full t1 && writes_full t2.
Proof. unfold writes_full. apply forallb_app. Qed.

Lemma log_data_reading_spec (dt : Z) (r : lis2dw_reading_t) (m : machine) :
  round_spec dt [r] m (_log_data_reading dt r m).
Proof.
  unfold round_spec.
  change (wp (_log_data_reading dt r)
             (fun ok m' =>
                exists post,
                  trace m' = trace m ++ post
                  /\ state m' = state m
                  /\ chirp_data_ptr m' = chirp_data_ptr m
                  /\ chirp_data_ix m' = chirp_data_ix m
                  /\ chirp_data_len m' = chirp_data_len m
                  /\ forallb is_write post = true
                  /\ (ok = true ->
                      concat (write_buffers post)
                      = flat_map (sample_bytes dt) [r])
                  /\ (ok = false -> writes_full post = false)) m).
  repeat wp_step.
  all: first [ eexists; split; [rewrite <- ?app_assoc; reflexivity |]
             | exists []; split; [symmetry; apply app_nil_r |] ].
  all: repeat (split; [reflexivity |]).
  all: unfold sample_bytes, writes_full;
    cbn [flat_map write_buffers concat app forallb];
    rewrite ?app_nil_r, ?le_bytes_length;
    repeat match goal with
           | H : has_flag _ _ = _ |- _ => rewrite H
           end;
    cbn [app length mag_buffer].
  all: split; intros Hok; try discriminate Hok;
    rewrite <- ?app_assoc, ?app_nil_r; try reflexivity.
  all: tests.
  all: repeat match goal with
              | |- context [?a =? ?b] => destruct (Z.eqb_spec a b)
              end; try reflexivity.
  all: exfalso;
    match goal with
    | H : to_uint32 _ <> _ |- _ => apply H
    end;
    repeat match goal with
           | H : fst _ = Z.of_nat _ |- _ => rewrite H
           end; reflexivity.
Qed.

Lemma log_data_loop_spec (fifo : lis2dw_fifo_t) (todo : nat) :
  forall (cnt : Z) (m : machine),
    round_spec (data_type (state m)) (fifo_readings fifo todo cnt) m
               (_log_data_loop fifo todo cnt m).
Proof.
  induction todo as [| todo IH]; intros cnt m; cbn [_log_data_loop fifo_readings].
  - exists []. unfold ret. norm. rewrite app_nil_r.
    repeat split; try reflexivity. intros H; discriminate H.
  - unfold bind, get, gets. norm.
    destruct (log_data_reading_spec (data_type (state m))
                                    (fifo_reading fifo cnt) m)
      as (post1 & Ht1 & Hs1 & Hp1 & Hi1 & Hl1 & Hw1 & Hok1 & Hko1).
    destruct (_log_data_reading (data_type (state m))
                                (fifo_reading fifo cnt) m) as [ok m1].
    cbn [fst snd] in *. destruct ok.
    + destruct (IH (cnt + 1) m1)
        as (post2 & Ht2 & Hs2 & Hp2 & Hi2 & Hl2 & Hw2 & Hok2 & Hko2).
      exists (post1 ++ post2).
      rewrite Ht2, Ht1, Hs2, Hs1, Hp2, Hp1, Hi2, Hi1, Hl2, Hl1, app_assoc.
      repeat (split; [reflexivity |]).
      split; [apply forallb_app_true; assumption |].
      rewrite Hs1 in Hok2.
      split.
      * intros Hok. rewrite write_buffers_app, concat_app.
        rewrite (Hok2 Hok). cbn [flat_map] in Hok1 |- *.
        rewrite app_nil_r in Hok1. rewrite (Hok1 eq_refl). reflexivity.
      * intros Hko. rewrite writes_full_app, (Hko2 Hko). apply andb_false_r.
    + exists post1. unfold ret. norm.
      repeat (split; [assumption |]).
      split; [intros H; discriminate H | exact Hko1].
Qed.

(** What one call of [_log_data] does to the machine. *)
Lemma log_data_run (fifo : lis2dw_fifo_t) (m : machine) :
  let m' := run (_log_data fifo) m in
  exists post,
    trace m' = trace m ++ post
    /\ forallb is_write post = true
    /\ with_error (error (state m)) (state m') = state m
    /\ (error (state m') = error (state m)
        \/ error (state m') = ERROR_WRITE_DATA)
    /\ chirp_data_ptr m' = chirp_data_ptr m
    /\ chirp_data_ix m' = chirp_data_ix m
    /\ chirp_data_len m' = chirp_data_len m
    /\ (count fifo = 0 -> post = [] /\ env m' = env m)
    /\ (count fifo <> 0 -> writes_full post = true ->
        error (state m') = error (state m)
        /\ concat (write_buffers post)
           = block_bytes (data_type (state m)) fifo).
Proof.
  intros m'. subst m'. unfold _log_data, run.
  destruct (Z.eqb_spec (count fifo) 0) as [Hc | Hc].
  { exists []. unfold ret. norm. rewrite app_nil_r.
    destruct (state m). repeat split; auto. intros; contradiction. }
  unfold bind, file_write, act. norm.
  set (w := lfs_file_write [count fifo] (env m)).
  set (m0 := with_trace _ (with_env _ m)).
  destruct (Z.eqb_spec (to_uint32 (fst w)) 1) as [Hw | Hw]; norm.
  - destruct (log_data_loop_spec fifo (Z.to_nat (count fifo)) 0 m0)
      as (post & Ht & Hs & Hp & Hi & Hl & Hwr & Hok & Hko).
    destruct (_log_data_loop fifo (Z.to_nat (count fifo)) 0 m0) as [ok m1].
    cbn [fst snd] in *. subst m0. norm_in Ht. norm_in Hs. norm_in Hp.
    norm_in Hi. norm_in Hl. norm_in Hok.
    exists (lfs_file_write_call [count fifo] (fst w) :: post).
    destruct ok; unfold ret, modify, puts; norm; rewrite Ht, Hs, ?Hp, ?Hi, ?Hl.
    all: rewrite <- app_assoc; cbn [app forallb is_write].
    all: destruct (state m); norm.
    all: repeat split; auto; try (intros; contradiction).
    all: match goal with
         | H0 : writes_full (_ :: _) = true |- _ =>
             unfold writes_full in H0; cbn [forallb] in H0;
             apply andb_prop in H0; destruct H0 as (_ & Hfull)
         end.
    all: try (pose proof (Hko eq_refl) as Hk; unfold writes_full in Hk;
              congruence).
    unfold block_bytes.
    match goal with
    | |- context [?c :: post] => change (c :: post) with ([c] ++ post)
    end.
    rewrite write_buffers_app, concat_app, (Hok eq_refl). reflexivity.
  - exists [lfs_file_write_call [count fifo] (fst w)].
    unfold ret, modify, puts. norm. subst m0. norm.
    destruct (state m); norm.
    repeat split; auto; try (intros; contradiction).
    all: match goal with
         | H0 : writes_full [_] = true |- _ =>
             unfold writes_full in H0; cbn [forallb length] in H0;
             rewrite andb_true_r in H0; apply Z.eqb_eq in H0;
             exfalso; apply Hw; rewrite H0; reflexivity
         end.
Qed.

(** X11: the calls [_log_data] makes are writes only, and it touches
    nothing of the face but the error code, which it leaves as it was or
    sets to WriteData.  An empty queue writes nothing.  When every write
    of the batch is complete the error code is left as it was and the bytes
    handed to the filesystem are the data block: the count byte, then for
    each of the first [count] readings the raw axes (if selected) and the
    three bytes of the magnitude (if selected). *)
Theorem log_data_block (fifo : lis2dw_fifo_t) (m : machine) :
  let m' := run (_log_data fifo) m in
  exists post,
    trace m' = trace m ++ post
    /\ forallb is_write post = true
    /\ with_error (error (state m)) (state m') = state m
    /\ (error (state m') = error (state m)
        \/ error (state m') = ERROR_WRITE_DATA)
    /\ chirp_data_ptr m' = chirp_data_ptr m
    /\ chirp_data_ix m' = chirp_data_ix m
    /\ chirp_data_len m' = chirp_data_len m
    /\ (count fifo = 0 -> post = [] /\ env m' = env m)
    /\ (count fifo <> 0 -> writes_full post = true ->
        error (state m') = error (state m)
        /\ concat (write_buffers post)
           = block_bytes (data_type (state m)) fifo).
Proof. exact (log_data_run fifo m). Qed.

(** *** The quota *)









(** X5: what the face hands to [lfs_file_write] can be read back.  One round
    of the loop of [_log_data] on a reading of three signed 16-bit axes: when
    the raw axes are selected the first three buffers are the axes, each
    read back from its two bytes (least significant first) by sign
    extension; when only the magnitude is selected the one buffer gives the
    magnitude back.  [_log_steps], once the marker byte is written, hands
    over the marker 0xff and the pending step count.  The last header write
    of [_start_recording] gives back the [start_ts] it has just set. *)
Theorem logged_values_read_back (m : machine) (r : lis2dw_reading_t) :
  reading_ok r ->
  uint16 (steps (state m)) ->
  let dt := data_type (state m) in
  (exists post,
      trace (snd (_log_data_reading dt r m)) = trace m ++ post
      /\ (has_flag dt LOG_DATA_XYZ = true ->
          map (fun b => to_int16 (le_value b)) (firstn 3 (write_buffers post))
          = [rx r; ry r; rz r])
      /\ (has_flag dt LOG_DATA_XYZ = false ->
          has_flag dt LOG_DATA_MAG = true ->
          map le_value (write_buffers post)
          = [if has_flag dt LOG_DATA_L1
             then fast_l1_norm r else fast_l2_norm r]))
  /\ (exists post,
         trace (run _log_steps m) = trace m ++ post
         /\ (to_uint32 (fst (lfs_file_write [LOG_FILE_MARKER]
                                            (snd (lfs_file_open (env m)))))
             = 1 ->
             map le_value (write_buffers post) = [255; steps (state m)]))
  /\ (exists post,
         trace (run _start_recording m) = trace m ++ post
         /\ map le_value (skipn 5 (write_buffers post))
            = [start_ts (state (run _start_recording m))]).
Proof.
  intros Hr Hsteps dt. subst dt.
  pose proof Hr as (Hx & Hy & Hz).
  split; [| split].
  - change (wp (_log_data_reading (data_type (state m)) r)
               (fun _ m' =>
                  exists post,
                    trace m' = trace m ++ post
                    /\ (has_flag (data_type (state m)) LOG_DATA_XYZ = true ->
                        map (fun b => to_int16 (le_value b))
                            (firstn 3 (write_buffers post))
                        = [rx r; ry r; rz r])
                    /\ (has_flag (data_type (state m)) LOG_DATA_XYZ = false ->
                        has_flag (data_type (state m)) LOG_DATA_MAG = true ->
                        map le_value (write_buffers post)
                        = [if has_flag (data_type (state m)) LOG_DATA_L1
                           then fast_l1_norm r else fast_l2_norm r])) m).
    repeat wp_step.
    all: first [ eexists; split; [rewrite <- ?app_assoc; reflexivity |]
               | exists []; split; [symmetry; apply app_nil_r |] ].
    all: split; intros; try congruence.
    all: cbn [write_buffers flat_map app firstn map].
    all: rewrite ?le_bytes_int16, ?mag_buffer_norm by assumption.
    all: reflexivity.
  - pattern (run _log_steps m); apply wp_run.
    repeat wp_step.
    all: eexists; split; [rewrite <- ?app_assoc; reflexivity |].
    all: intros Hmarker; tests; try contradiction.
    all: cbn [write_buffers flat_map app map].
    all: rewrite le_bytes_uint16 by assumption; reflexivity.
  - pattern (run _start_recording m); apply wp_run.
    repeat wp_step.
    all: eexists; split; [rewrite <- ?app_assoc; reflexivity |].
    all: cbn [write_buffers flat_map app skipn map].
    all: rewrite le_bytes_uint32; reflexivity.
Qed.

(** *** Further properties of the recording page *)

(** X12: a tick on the recording page while no recording is active only
    redraws the display: the sensor queue is not read, the filesystem is
    only asked for its free space, and the face, its statics and the world
    are as before. *)
Theorem recording_tick_idle (m : machine) (e : movement_event_t) :
  page (state m) = PAGE_RECORDING ->
  event_type e = EVENT_TICK ->
  start_ts (state m) = 0 ->
  let m' := run (stepcounter_logging_face_loop e) m in
  state m' = state m
  /\ env m' = env m
  /\ chirp_data_ptr m' = chirp_data_ptr m
  /\ chirp_data_ix m' = chirp_data_ix m
  /\ chirp_data_len m' = chirp_data_len m
  /\ trace m'
     = trace m
         ++ [ watch_clear_colon_call;
              watch_display_text_call WATCH_POSITION_TOP_RIGHT
                                      (TEXT_INDEX (index (state m)));
              watch_display_text_call WATCH_POSITION_TOP_LEFT TEXT_REC;
              watch_display_text_call
                WATCH_POSITION_BOTTOM
                (if error (state m) =? 0
                 then TEXT_FREE (filesystem_get_free_space (env m))
                 else TEXT_ERROR (error (state m))) ].
Proof.
  intros Hpage Hev Hts m'. subst m'. wp_run_all.
  all: tests; rewrite <- ?app_assoc.
  all: repeat split; try reflexivity.
  all: repeat match goal with
              | |- context [?a =? ?b] => destruct (Z.eqb_spec a b)
              end; try reflexivity; try congruence.
Qed.

(** X13: a tick of an active recording that finds at least 512 bytes free
    after logging its batch keeps the session open: [start_ts], [index]
    and the page are unchanged and, after the batch, the filesystem is only
    asked for its free space. *)
Theorem recording_tick_continues (m : machine) (e : movement_event_t) :
  page (state m) = PAGE_RECORDING ->
  event_type e = EVENT_TICK ->
  start_ts (state m) <> 0 ->
  let m1 := run recording_tick_log m in
  MIN_FS_SPACE <= filesystem_get_free_space (env m1) ->
  let m' := run (stepcounter_logging_face_loop e) m in
  start_ts (state m') = start_ts (state m)
  /\ index (state m') = index (state m)
  /\ page (state m') = PAGE_RECORDING
  /\ env m' = env m1
  /\ exists post, trace m' = trace m1 ++ post
                  /\ filter touches_storage post = [].
Proof.
  intros Hpage Hev Hts m1 Hfree m'.
  assert (Hrun : m' = run (bind _enforce_quota
                             (fun _ => bind _recording_display
                                            (fun _ => ret true))) m1).
  { subst m' m1.
    unfold stepcounter_logging_face_loop, _recording_loop, recording_tick_log,
      run, bind, get, gets.
    norm. rewrite Hpage, Hev.
    apply Z.eqb_neq in Hts. rewrite Hts. reflexivity. }
  assert (Hstate : start_ts (state m1) = start_ts (state m)
                   /\ index (state m1) = index (state m)
                   /\ page (state m1) = page (state m)).
  { subst m1. unfold recording_tick_log, run, bind, read_fifo, act, act_.
    norm.
    match goal with
    | |- context [_log_data ?f ?x] => pose proof (log_data_state f x) as H
    end.
    unfold run in H. exact H. }
  destruct Hstate as (Hs & Hi & Hp).
  rewrite Hrun, <- Hs, <- Hi. rewrite Hpage in Hp. clear Hrun Hs Hi m'.
  apply Z.ltb_ge in Hfree. clearbody m1.
  wp_run_all.
  all: repeat split; try reflexivity; try assumption.
  all: eexists; split; [rewrite <- ?app_assoc; reflexivity | reflexivity].
Qed.

(** X14: a long press of the alarm button on the recording page switches
    to the chirping page at 1 Hz and changes nothing else: a recording in
    progress is neither stopped nor closed, and nothing reaches the
    filesystem. *)
Theorem recording_long_press (m : machine) (e : movement_event_t) :
  page (state m) = PAGE_RECORDING ->
  event_type e = EVENT_ALARM_LONG_PRESS ->
  let m' := run (stepcounter_logging_face_loop e) m in
  page (state m') = PAGE_CHIRPING
  /\ with_page PAGE_RECORDING (state m') = state m
  /\ env m' = env m
  /\ chirp_data_ptr m' = chirp_data_ptr m
  /\ chirp_data_ix m' = chirp_data_ix m
  /\ chirp_data_len m' = chirp_data_len m
  /\ exists post, trace m' = trace m ++ post
                  /\ filter touches_storage post = []
                  /\ forall f, tick_frequency_after f post = 1.
Proof.
  intros Hpage Hev m'. subst m'. wp_run_all.
  all: rewrite <- Hpage; destruct (state m); norm.
  all: repeat split; try reflexivity.
  all: eexists; split; [rewrite <- ?app_assoc; reflexivity |].
  all: split; [reflexivity | intros; reflexivity].
Qed.

(** X15: the release of the alarm button on the recording page while a
    recording is active stops it and switches to the labeling page: the
    file is synced and closed, [start_ts] is reset, [index] goes up by
    one modulo 256, 4 Hz ticks are requested, and the error code and the
    pending steps are as before. *)
Theorem recording_alarm_stops (m : machine) (e : movement_event_t) :
  page (state m) = PAGE_RECORDING ->
  event_type e = EVENT_ALARM_BUTTON_UP ->
  start_ts (state m) <> 0 ->
  let m' := run (stepcounter_logging_face_loop e) m in
  start_ts (state m') = 0
  /\ index (state m') = (index (state m) + 1) mod 256
  /\ page (state m') = PAGE_LABELING
  /\ error (state m') = error (state m)
  /\ steps (state m') = steps (state m)
  /\ exists post,
      trace m' = trace m ++ post
      /\ filter touches_storage post
         = [lfs_file_sync_call;
            lfs_file_close_call (fst (lfs_file_close (lfs_file_sync (env m))))]
      /\ forall f, tick_frequency_after f post = 4.
Proof.
  intros Hpage Hev Hts m'. subst m'. wp_run_all.
  all: repeat split; try reflexivity.
  all: eexists; split; [rewrite <- ?app_assoc; reflexivity |].
  all: split; [reflexivity | intros; reflexivity].
Qed.

(** *** Further properties of the transmission scheduler *)

(** X16: on the chirping page the release of the mode button leads back to
    the recording page at 1 Hz with the chirping flag cleared; a
    transmission in progress is torn down (buffer freed if there is one,
    pointer, cursor and length reset), and without one the statics and the
    world are not touched.  The log file is never removed, and the error
    code and [start_ts] are as before. *)
Theorem chirping_mode_button_cancels (m : machine) (e : movement_event_t) :
  page (state m) = PAGE_CHIRPING ->
  event_type e = EVENT_MODE_BUTTON_UP ->
  let m' := run (stepcounter_logging_face_loop e) m in
  page (state m') = PAGE_RECORDING
  /\ chirping (state m') = false
  /\ error (state m') = error (state m)
  /\ start_ts (state m') = start_ts (state m)
  /\ (chirping (state m) = true ->
      chirp_data_ptr m' = 0 /\ chirp_data_ix m' = 0 /\ chirp_data_len m' = 0)
  /\ (chirping (state m) = false ->
      chirp_data_ptr m' = chirp_data_ptr m
      /\ chirp_data_ix m' = chirp_data_ix m
      /\ chirp_data_len m' = chirp_data_len m
      /\ env m' = env m)
  /\ exists post,
      trace m' = trace m ++ post
      /\ filter touches_storage post
         = (if chirping (state m) && negb (chirp_data_ptr m =? 0)
            then [free_call (chirp_data_ptr m)] else [])
      /\ forall f, tick_frequency_after f post = 1.
Proof.
  intros Hpage Hev m'. subst m'. wp_run_all.
  all: tests;
    repeat match goal with
           | H : chirping _ = _ |- _ => rewrite H
           | H : chirp_data_ptr _ = 0 |- _ => rewrite H
           | H : chirp_data_ptr _ <> 0 |- _ =>
               apply Z.eqb_neq in H; rewrite H
           end; cbn [andb negb].
  all: repeat split; try reflexivity; try discriminate; try congruence.
  all: eexists; split; [rewrite <- ?app_assoc; reflexivity |].
  all: split; [reflexivity | intros; reflexivity].
Qed.

(** X17: on the chirping page a long press of the light button does what
    the mode button does and, after the teardown, calls [lfs_remove] on the
    log file exactly once; the result of the removal does not touch the
    error code. *)
Theorem chirping_light_long_press_deletes (m : machine) (e : movement_event_t) :
  page (state m) = PAGE_CHIRPING ->
  event_type e = EVENT_LIGHT_LONG_PRESS ->
  let m' := run (stepcounter_logging_face_loop e) m in
  page (state m') = PAGE_RECORDING
  /\ chirping (state m') = false
  /\ error (state m') = error (state m)
  /\ start_ts (state m') = start_ts (state m)
  /\ (chirping (state m) = true ->
      chirp_data_ptr m' = 0 /\ chirp_data_ix m' = 0 /\ chirp_data_len m' = 0)
  /\ exists post err,
      trace m' = trace m ++ post
      /\ filter touches_storage post
         = (if chirping (state m) && negb (chirp_data_ptr m =? 0)
            then [free_call (chirp_data_ptr m)] else [])
           ++ [lfs_remove_call err]
      /\ forall f, tick_frequency_after f post = 1.
Proof.
  intros Hpage Hev m'. subst m'. wp_run_all.
  all: tests;
    repeat match goal with
           | H : chirping _ = _ |- _ => rewrite H
           | H : chirp_data_ptr _ = 0 |- _ => rewrite H
           | H : chirp_data_ptr _ <> 0 |- _ =>
               apply Z.eqb_neq in H; rewrite H
           end; cbn [andb negb].
  all: repeat split; try reflexivity; try discriminate; try congruence.
  all: eexists; eexists; split; [rewrite <- ?app_assoc; reflexivity |].
  all: split; [reflexivity | intros; reflexivity].
Qed.

(** One call of the callback, from a cursor within the buffer. *)
Lemma chirp_next_byte_step (m : machine) :
  0 <= chirp_data_ix m <= chirp_data_len m ->
  chirp_data_len m <= 65535 ->
  let b := fst (_chirp_next_byte m) in
  let m' := snd (_chirp_next_byte m) in
  (chirp_data_ix m = chirp_data_len m ->
   b = None /\ chirp_data_ix m' = chirp_data_ix m)
  /\ (chirp_data_ix m < chirp_data_len m ->
      b = Some (load8 (chirp_data_ptr m + chirp_data_ix m) (env m))
      /\ chirp_data_ix m' = chirp_data_ix m + 1)
  /\ 0 <= chirp_data_ix m' <= chirp_data_len m'
  /\ state m' = state m
  /\ chirp_data_ptr m' = chirp_data_ptr m
  /\ chirp_data_len m' = chirp_data_len m
  /\ env m' = env m
  /\ trace m' = trace m.
Proof.
  intros Hix Hlen b m'. subst b m'.
  change (wp _chirp_next_byte
             (fun b m' =>
                (chirp_data_ix m = chirp_data_len m ->
                 b = None /\ chirp_data_ix m' = chirp_data_ix m)
                /\ (chirp_data_ix m < chirp_data_len m ->
                    b = Some (load8 (chirp_data_ptr m + chirp_data_ix m) (env m))
                    /\ chirp_data_ix m' = chirp_data_ix m + 1)
                /\ 0 <= chirp_data_ix m' <= chirp_data_len m'
                /\ state m' = state m
                /\ chirp_data_ptr m' = chirp_data_ptr m
                /\ chirp_data_len m' = chirp_data_len m
                /\ env m' = env m
                /\ trace m' = trace m) m).
  repeat wp_step.
  all: tests.
  - repeat split; try reflexivity; try lia.
  - assert (Hnext : to_uint16 (chirp_data_ix m + 1) = chirp_data_ix m + 1)
      by (unfold to_uint16; apply Z.mod_small; lia).
    rewrite Hnext.
    repeat split; try reflexivity; try lia.
Qed.

(** X18: the callback [_chirp_next_byte], called with the cursor within
    the buffer, answers the byte at the cursor and moves the cursor by one,
    or answers that no byte is left when the cursor is at the end and then
    changes nothing; the cursor never passes the length, and neither the
    face, the buffer pointer, the length, the world nor the trace is
    touched. *)
Theorem chirp_next_byte_contract (m : machine) :
  0 <= chirp_data_ix m <= chirp_data_len m ->
  chirp_data_len m <= 65535 ->
  let b := fst (_chirp_next_byte m) in
  let m' := snd (_chirp_next_byte m) in
  (chirp_data_ix m = chirp_data_len m ->
   b = None /\ chirp_data_ix m' = chirp_data_ix m)
  /\ (chirp_data_ix m < chirp_data_len m ->
      b = Some (load8 (chirp_data_ptr m + chirp_data_ix m) (env m))
      /\ chirp_data_ix m' = chirp_data_ix m + 1)
  /\ 0 <= chirp_data_ix m' <= chirp_data_len m'
  /\ state m' = state m
  /\ chirp_data_ptr m' = chirp_data_ptr m
  /\ chirp_data_len m' = chirp_data_len m
  /\ env m' = env m
  /\ trace m' = trace m.
Proof. exact (chirp_next_byte_step m). Qed.

Lemma memory_bytes_S (w : world) (ptr ix : Z) (n : nat) :
  memory_bytes w ptr ix (S n)
  = load8 (ptr + ix) w :: memory_bytes w ptr (ix + 1) n.
Proof.
  unfold memory_bytes. cbn [seq map]. rewrite Z.add_0_r. f_equal.
  rewrite <- seq_shift, map_map. apply map_ext. intros k.
  f_equal. lia.
Qed.

Lemma drain_spec (n : nat) :
  forall m : machine,
    0 <= chirp_data_ix m <= chirp_data_len m ->
    chirp_data_len m <= 65535 ->
    let todo := Nat.min n (Z.to_nat (chirp_data_len m - chirp_data_ix m)) in
    fst (drain n m)
    = memory_bytes (env m) (chirp_data_ptr m) (chirp_data_ix m) todo
    /\ chirp_data_ix (snd (drain n m)) = chirp_data_ix m + Z.of_nat todo
    /\ state (snd (drain n m)) = state m
    /\ chirp_data_ptr (snd (drain n m)) = chirp_data_ptr m
    /\ chirp_data_len (snd (drain n m)) = chirp_data_len m
    /\ env (snd (drain n m)) = env m
    /\ trace (snd (drain n m)) = trace m.
Proof.
  induction n as [| n IH]; intros m Hix Hlen todo; subst todo.
  - cbn [drain Nat.min]. unfold ret. norm. rewrite Z.add_0_r.
    repeat split; reflexivity.
  - cbn [drain]. unfold bind, ret. norm.
    destruct (chirp_next_byte_step m Hix Hlen)
      as (Hend & Hmore & Hin & Hs & Hp & Hl & He & Ht).
    destruct (Z.eq_dec (chirp_data_ix m) (chirp_data_len m)) as [Heq | Hne].
    + destruct (Hend Heq) as (Hb & Hi). rewrite Hb. norm.
      replace (chirp_data_len m - chirp_data_ix m) with 0 by lia.
      change (Z.to_nat 0) with 0%nat. rewrite Nat.min_0_r.
      unfold memory_bytes. cbn [seq map]. rewrite Z.add_0_r.
      rewrite Hs, Hp, Hl, He, Ht, Hi.
      repeat split; reflexivity.
    + assert (Hlt : chirp_data_ix m < chirp_data_len m) by lia.
      destruct (Hmore Hlt) as (Hb & Hi). rewrite Hb. norm.
      set (m1 := snd (_chirp_next_byte m)) in *.
      assert (Hix1 : 0 <= chirp_data_ix m1 <= chirp_data_len m1) by exact Hin.
      assert (Hlen1 : chirp_data_len m1 <= 65535) by (rewrite Hl; exact Hlen).
      destruct (IH m1 Hix1 Hlen1) as (Hf & Hi' & Hs' & Hp' & Hl' & He' & Ht').
      rewrite Hf, Hi', Hs', Hp', Hl', He', Ht', Hs, Hp, Hl, He, Ht, Hi.
      replace (Z.to_nat (chirp_data_len m - chirp_data_ix m))
        with (S (Z.to_nat (chirp_data_len m - (chirp_data_ix m + 1))))
        by lia.
      rewrite <- Nat.succ_min_distr, memory_bytes_S.
      repeat split; try reflexivity. lia.
Qed.

(** X19: called again and again from the start of a loaded buffer, the
    callback supplies the bytes of the buffer once each and in order, then
    reports the end, with the cursor at the length. *)
Theorem drain_supplies_buffer (m : machine) (n : nat) :
  0 <= chirp_data_ix m <= chirp_data_len m ->
  chirp_data_len m <= 65535 ->
  (Z.to_nat (chirp_data_len m - chirp_data_ix m) <= n)%nat ->
  let m' := snd (drain n m) in
  fst (drain n m)
  = memory_bytes (env m) (chirp_data_ptr m) (chirp_data_ix m)
                 (Z.to_nat (chirp_data_len m - chirp_data_ix m))
  /\ chirp_data_ix m' = chirp_data_len m
  /\ fst (_chirp_next_byte m') = None
  /\ trace m' = trace m.
Proof.
  intros Hix Hlen Hn m'. subst m'.
  destruct (drain_spec n m Hix Hlen) as (Hf & Hi & Hs & Hp & Hl & He & Ht).
  rewrite Nat.min_r in Hf, Hi by exact Hn.
  assert (Hend : chirp_data_ix (snd (drain n m)) = chirp_data_len m)
    by (rewrite Hi; lia).
  split; [exact Hf | split; [exact Hend | split; [| exact Ht]]].
  set (m1 := snd (drain n m)) in *.
  assert (Hix1 : 0 <= chirp_data_ix m1 <= chirp_data_len m1)
    by (rewrite Hl, Hend; lia).
  assert (Hlen1 : chirp_data_len m1 <= 65535) by (rewrite Hl; exact Hlen).
  destruct (chirp_next_byte_step m1 Hix1 Hlen1) as (Hnone & _).
  apply Hnone. rewrite Hl. exact Hend.
Qed.

(** X20: when the encoder answers a tone other than 255,
    [_chirp_tick_transmit] programs the period of that tone with a duty
    cycle of 25 and switches the buzzer on; the transmission goes on, and
    nothing is freed. *)
Theorem transmit_tone_sounds (m : machine) :
  let r := chirpy_get_next_tone machine _chirp_next_byte
             (chirpy_encoder_state (state m)) m in
  let tone := to_uint8 (fst (fst r)) in
  tone <> 255 ->
  let m' := run _chirp_tick_transmit m in
  state m' = with_encoder_state (snd (fst r)) (state (snd r))
  /\ chirp_data_ptr m' = chirp_data_ptr (snd r)
  /\ chirp_data_ix m' = chirp_data_ix (snd r)
  /\ chirp_data_len m' = chirp_data_len (snd r)
  /\ env m' = env (snd r)
  /\ trace m'
     = trace (snd r)
         ++ [ chirpy_get_next_tone_call tone;
              watch_set_buzzer_period_and_duty_cycle_call
                (to_uint16 (chirpy_get_tone_period tone)) 25;
              watch_set_buzzer_on_call ]
  /\ forall b, buzzer_after b (trace m') = true.
Proof.
  intros r tone Htone m'. subst m'. unfold tone, r in *. clear tone r.
  wp_run_all.
  all: tests; try congruence.
  repeat split; rewrite <- ?app_assoc; try reflexivity.
  intros b. unfold buzzer_after. rewrite !fold_left_app. reflexivity.
Qed.

(** X21: a tick on the chirping page on which the tick function does not
    fire (no transmission is running, or the divider has not reached its
    compare value) only redraws the display: apart from the divider count,
    which goes up by one modulo 256 while a transmission runs, the face,
    the statics and the world are as before. *)
Theorem chirping_tick_waits (m : machine) (e : movement_event_t) :
  page (state m) = PAGE_CHIRPING ->
  event_type e = EVENT_TICK ->
  chirping (state m) = false
  \/ to_uint8 (tick_count (chirpy_tick_state (state m)) + 1)
     <> tick_compare (chirpy_tick_state (state m)) ->
  let m' := run (stepcounter_logging_face_loop e) m in
  state m'
  = with_tick_state
      (with_tick_count
         (if chirping (state m)
          then to_uint8 (tick_count (chirpy_tick_state (state m)) + 1)
          else tick_count (chirpy_tick_state (state m)))
         (chirpy_tick_state (state m)))
      (state m)
  /\ env m' = env m
  /\ chirp_data_ptr m' = chirp_data_ptr m
  /\ chirp_data_ix m' = chirp_data_ix m
  /\ chirp_data_len m' = chirp_data_len m
  /\ exists post, trace m' = trace m ++ post
                  /\ forallb is_display post = true.
Proof.
  intros Hpage Hev Hwait m'. subst m'. wp_run_all.
  all: tests; try (destruct Hwait; congruence).
  all: repeat match goal with
              | H : chirping _ = _ |- _ => rewrite H
              end.
  all: destruct (state m) as [? ? ? ? ? ? [? ? ? ?] ? ?]; norm.
  all: repeat split; try reflexivity.
  all: eexists; split; [rewrite <- ?app_assoc; reflexivity | reflexivity].
Qed.

(** X22: on the chirping page the release of the alarm button starts the
    countdown: 64 Hz ticks are requested, the chirping flag is set and the
    divider is set to fire the countdown function every 8 ticks from
    position 0.  Nothing else is touched; in particular a buffer held by a
    transmission already in progress is neither freed nor reset. *)
Theorem chirping_alarm_starts_countdown (m : machine) (e : movement_event_t) :
  page (state m) = PAGE_CHIRPING ->
  event_type e = EVENT_ALARM_BUTTON_UP ->
  let m' := run (stepcounter_logging_face_loop e) m in
  state m'
  = with_tick_state (mk_tick_state 255 8 0 tick_fun_countdown)
                    (with_chirping true (state m))
  /\ env m' = env m
  /\ chirp_data_ptr m' = chirp_data_ptr m
  /\ chirp_data_ix m' = chirp_data_ix m
  /\ chirp_data_len m' = chirp_data_len m
  /\ trace m' = trace m ++ [movement_request_tick_frequency_call 64;
                            watch_set_indicator_call].
Proof.
  intros Hpage Hev m'. subst m'. wp_run_all.
  rewrite <- ?app_assoc.
  repeat split; reflexivity.
Qed.

(** *** Further properties of the face as a whole *)

(** X23: [stepcounter_logging_face_resign] leaves no session open and no
    transmission running: [start_ts] is 0 and the chirping flag is clear
    afterwards; an active recording is closed (and [index] goes up by
    one), a transmission is torn down, the sensor queue is disabled last.
    The page and the error code are not changed. *)
Theorem resign_ends_everything (m : machine) :
  let m' := run stepcounter_logging_face_resign m in
  start_ts (state m') = 0
  /\ chirping (state m') = false
  /\ page (state m') = page (state m)
  /\ error (state m') = error (state m)
  /\ index (state m')
     = (if start_ts (state m) =? 0 then index (state m)
        else (index (state m) + 1) mod 256)
  /\ (chirping (state m) = true ->
      chirp_data_ptr m' = 0 /\ chirp_data_ix m' = 0 /\ chirp_data_len m' = 0)
  /\ exists post,
      trace m' = trace m ++ post
      /\ last post watch_clear_colon_call = lis2dw_disable_fifo_call
      /\ filter is_close post
         = (if start_ts (state m) =? 0 then []
            else [lfs_file_close_call
                    (fst (lfs_file_close (lfs_file_sync (env m))))]).
Proof.
  intros m'. subst m'. wp_run_all.
  all: tests;
    repeat match goal with
           | H : start_ts _ = 0 |- _ => rewrite H
           | H : start_ts _ <> 0 |- _ => apply Z.eqb_neq in H; rewrite H
           end; change (0 =? 0) with true; cbn [negb].
  all: repeat split; try reflexivity; try congruence.
  all: eexists; split; [rewrite <- ?app_assoc; reflexivity |].
  all: split; reflexivity.
Qed.

(** X24: the events that no page handles (none, low energy update,
    background task, timeout, light button up, mode button down, mode long
    press) are passed to [movement_default_loop_handler] on every page and
    change nothing of the face, its statics or the world. *)
Theorem unhandled_event_forwarded (m : machine) (e : movement_event_t) :
  In (event_type e)
     [EVENT_NONE; EVENT_LOW_ENERGY_UPDATE; EVENT_BACKGROUND_TASK;
      EVENT_TIMEOUT; EVENT_LIGHT_BUTTON_UP; EVENT_MODE_BUTTON_DOWN;
      EVENT_MODE_LONG_PRESS] ->
  run (stepcounter_logging_face_loop e) m
  = with_trace (trace m ++ [movement_default_loop_handler_call e]) m.
Proof.
  intros Hin.
  unfold stepcounter_logging_face_loop, _recording_loop, _labeling_loop,
    _chirping_loop, run, bind, get, gets, ret, emit, puts.
  norm.
  cbn [In] in Hin.
  destruct (page (state m));
    repeat (destruct Hin as [Hin | Hin]; [rewrite <- Hin; reflexivity |]);
    contradiction.
Qed.

(** What [_log_data] leaves of a machine: everything but the error code,
    the world and the trace. *)
Lemma wp_log_data (fifo : lis2dw_fifo_t) (Q : unit -> machine -> Prop)
      (m : machine) :
  (forall m',
      with_error (error (state m)) (state m') = state m ->
      (error (state m') = error (state m)
       \/ error (state m') = ERROR_WRITE_DATA) ->
      chirp_data_ptr m' = chirp_data_ptr m ->
      chirp_data_ix m' = chirp_data_ix m ->
      chirp_data_len m' = chirp_data_len m ->
      Q tt m') ->
  wp (_log_data fifo) Q m.
Proof.
  intros H. unfold wp. destruct (fst (_log_data fifo m)).
  destruct (log_data_run fifo m)
    as (post & _ & _ & Hs & He & Hp & Hi & Hl & _).
  apply H; assumption.
Qed.

Ltac wp_step_frame :=
  lazymatch goal with
  | |- wp (_log_data _) _ _ =>
      apply wp_log_data;
      let m' := fresh "m'" in
      let Hs := fresh "Hframe" in
      let He := fresh "Herr" in
      intros m' Hs He ? ? ?; norm_in Hs; norm_in He; norm
  | |- _ => wp_step
  end.

(** X25: the error code is sticky: on the recording and labeling pages no
    event, and on the chirping page no button event, turns a nonzero error
    code into zero. *)
Theorem error_is_sticky (m : machine) (e : movement_event_t) :
  (page (state m) = PAGE_CHIRPING ->
   event_type e <> EVENT_TICK /\ event_type e <> EVENT_ACTIVATE) ->
  error (state m) <> 0 ->
  error (state (run (stepcounter_logging_face_loop e) m)) <> 0.
Proof.
  intros Hpage Herror.
  match goal with
  | |- context [run ?c ?m] => pattern (run c m); apply wp_run
  end.
  destruct (page (state m)) eqn:Hp; destruct (event_type e) eqn:Hev;
    try (destruct (Hpage eq_refl); congruence).
  all: clear Hpage.
  all: repeat wp_step_frame.
  all: try assumption; try discriminate.
  all: destruct Herr as [Herr | Herr]; rewrite Herr;
    [assumption | discriminate].
Qed.

(** X26: on the labeling page the alarm button adds ten to the pending
    steps modulo 65536, and whatever the event the pending steps stay a
    16-bit value. *)
Theorem labeling_steps_in_range (m : machine) (e : movement_event_t) :
  page (state m) = PAGE_LABELING ->
  uint16 (steps (state m)) ->
  let m' := run (stepcounter_logging_face_loop e) m in
  uint16 (steps (state m'))
  /\ (event_type e = EVENT_ALARM_BUTTON_DOWN ->
      steps (state m') = (steps (state m) + 10) mod 65536
      /\ page (state m') = PAGE_LABELING).
Proof.
  intros Hpage Hsteps m'. subst m'. unfold uint16 in *.
  match goal with
  | |- context [run ?c ?m] => pattern (run c m); apply wp_run
  end.
  destruct (event_type e) eqn:Hev.
  all: repeat wp_step.
  all: tests; unfold to_uint16.
  all: split;
    [| intros Hx; first [discriminate Hx | split; [reflexivity | assumption]]].
  all: try lia.
  all: try destruct (0 <? steps (state m)).
  all: Z.div_mod_to_equations; lia.
Qed.

Lemma deliver_snoc (es : list movement_event_t) (e : movement_event_t)
      (m : machine) :
  deliver (es ++ [e]) m = run (stepcounter_logging_face_loop e) (deliver es m).
Proof. unfold deliver. rewrite fold_left_app. reflexivity. Qed.

Lemma filter_length_app {A} (f : A -> bool) (l1 l2 : list A) :
  Z.of_nat (length (filter f (l1 ++ l2)))
  = Z.of_nat (length (filter f l1)) + Z.of_nat (length (filter f l2)).
Proof. rewrite filter_app, length_app. lia. Qed.

(** One tick of the countdown before its last position. *)
Lemma countdown_tick (m0 m : machine) (e : movement_event_t) (n : Z) :
  event_type e = EVENT_TICK ->
  page (state m0) = PAGE_CHIRPING ->
  chirping (state m0) = true ->
  0 <= n < 192 ->
  countdown_at m0 n m ->
  countdown_at m0 (n + 1) (run (stepcounter_logging_face_loop e) m).
Proof.
  intros Hev Hpage Hchirping Hn (Hs & He & Hp & Hi & Hl & post & Ht & Hst & Hto & Hal).
  destruct m as [st ptr ix len w tr]. norm_in Hs. norm_in He. norm_in Hp.
  norm_in Hi. norm_in Hl. norm_in Ht. subst st ptr ix len w tr.
  unfold countdown_at.
  match goal with
  | |- context [run ?c ?x] => pattern (run c x); apply wp_run
  end.
  repeat wp_step.
  all: tests.
  all: try (exfalso; unfold to_uint8 in *; Z.div_mod_to_equations; lia).
  all: (split; [destruct (state m0);
                unfold with_tick_state, with_tick_count, with_seq_pos;
                norm; f_equal; f_equal;
                unfold to_uint8, to_uint16 in *; Z.div_mod_to_equations; lia |]).
  all: repeat (split; [reflexivity |]).
  all: eexists; split; [rewrite <- ?app_assoc; reflexivity |].
  all: split; [rewrite filter_app, Hst; reflexivity |].
  all: split; [rewrite filter_app, Hto; reflexivity |].
  all: rewrite filter_length_app, Hal.
  all: cbn [filter is_buzzer_on length app Z.of_nat Pos.of_succ_nat];
    unfold to_uint8 in *; Z.div_mod_to_equations; lia.
Qed.

(** X27: the countdown lasts 24 firings of 8 ticks.  From the state in
    which the release of the alarm button leaves the scheduler, [n + 1]
    ticks ([n] at most 192) leave the divider at [n mod 8] and the position
    at [n / 8] with the countdown function still installed; until then
    nothing reaches the filesystem, the heap or the encoder, and the alert
    tone has been switched on [(n + 56) / 64] times: three times after 193
    ticks, when the position is 24 and the log file has yet to be loaded. *)
Theorem countdown_duration (m : machine) (n : nat) :
  page (state m) = PAGE_CHIRPING ->
  chirping (state m) = true ->
  chirpy_tick_state (state m) = mk_tick_state 255 8 0 tick_fun_countdown ->
  (n <= 192)%nat ->
  countdown_at m (Z.of_nat n)
               (deliver (repeat (mk_event EVENT_TICK 0) (S n)) m).
Proof.
  intros Hpage Hchirping Htick.
  set (e := mk_event EVENT_TICK 0).
  assert (Hev : event_type e = EVENT_TICK) by reflexivity. clearbody e.
  induction n as [| n IH]; intros Hn.
  - cbn [repeat deliver fold_left Z.of_nat]. unfold countdown_at.
    destruct m as [st ptr ix len w tr]. destruct st as [? ? ? ? ? ? ts ? ?].
    norm_in Hpage. norm_in Hchirping. norm_in Htick. subst.
    match goal with
    | |- context [run ?c ?x] => pattern (run c x); apply wp_run
    end.
    repeat wp_step.
    all: try match goal with
             | H : (to_uint8 (255 + 1) =? 8) = true |- _ =>
                 vm_compute in H; discriminate H
             end.
    all: (split; [reflexivity |]).
    all: repeat (split; [reflexivity |]).
    all: eexists; split; [rewrite <- ?app_assoc; reflexivity |].
    all: repeat split; reflexivity.
  - change (repeat e (S (S n))) with (e :: repeat e (S n)).
    rewrite repeat_cons, deliver_snoc.
    replace (Z.of_nat (S n)) with (Z.of_nat n + 1) by lia.
    apply countdown_tick; try assumption; try reflexivity; try lia.
    apply IH. lia.
Qed.

(** X28: when the tick function fires at the end of the countdown and the
    log file exists, the allocation succeeds and the file is read, the
    scheduler enters the transmit phase with the divider set to fire every
    3 ticks: the buffer pointer is the block allocated, the length is the
    file size modulo 65536, the encoder is initialised and the error code
    is as before.  The cursor is not reset by the load. *)
Theorem countdown_end_loads (m : machine) (e : movement_event_t) :
  page (state m) = PAGE_CHIRPING ->
  event_type e = EVENT_TICK ->
  chirping (state m) = true ->
  to_uint8 (tick_count (chirpy_tick_state (state m)) + 1)
  = tick_compare (chirpy_tick_state (state m)) ->
  tick_fun (chirpy_tick_state (state m)) = tick_fun_countdown ->
  seq_pos (chirpy_tick_state (state m)) = 24 ->
  filesystem_file_exists (env m) = true ->
  let len := to_uint16 (filesystem_get_file_size (env m)) in
  let a := malloc len (env m) in
  let r := filesystem_read_file (fst a) len (snd a) in
  fst a <> 0 ->
  fst r = true ->
  let m' := run (stepcounter_logging_face_loop e) m in
  state m'
  = with_encoder_state
      (chirpy_init_encoder (chirpy_encoder_state (state m)))
      (with_tick_state (mk_tick_state 255 3 0 tick_fun_transmit) (state m))
  /\ chirp_data_ptr m' = fst a
  /\ chirp_data_len m' = len
  /\ chirp_data_ix m' = chirp_data_ix m
  /\ env m' = snd r
  /\ exists post,
      trace m' = trace m ++ post
      /\ filter touches_storage post
         = [malloc_call len (fst a);
            filesystem_read_file_call (fst a) len true]
      /\ forall b, buzzer_after b post = b.
Proof.
  intros Hpage Hev Hchirping Hfire Hfun Hpos Hfile len a r Hmem Hread m'.
  subst m' r a len. wp_run_all.
  all: tests; try congruence.
  all: rewrite Hread.
  all: (split; [destruct (state m) as [? ? ? ? ? ? [? ? ? ?] ? ?]; reflexivity |]).
  all: repeat (split; [reflexivity |]).
  all: eexists; split; [rewrite <- ?app_assoc; reflexivity |].
  all: split; [reflexivity | intros; reflexivity].
Qed.

(** X29: [stepcounter_logging_face_activate] clears the error code and
    changes nothing else of the face, its statics or the world; it enables
    the sensor queue and draws the recording display with the error gone;
    the filesystem is only asked for its free space. *)
Theorem activate_clears_error (m : machine) :
  let m' := run stepcounter_logging_face_activate m in
  state m' = with_error 0 (state m)
  /\ env m' = env m
  /\ chirp_data_ptr m' = chirp_data_ptr m
  /\ chirp_data_ix m' = chirp_data_ix m
  /\ chirp_data_len m' = chirp_data_len m
  /\ trace m'
     = trace m
         ++ [ lis2dw_enable_fifo_call; watch_clear_colon_call;
              watch_display_text_call WATCH_POSITION_TOP_RIGHT
                                      (TEXT_INDEX (index (state m)));
              watch_display_text_call WATCH_POSITION_TOP_LEFT TEXT_REC;
              watch_display_text_call
                WATCH_POSITION_BOTTOM
                (if start_ts (state m) =? 0
                 then TEXT_FREE (filesystem_get_free_space (env m))
                 else TEXT_RECORDING (filesystem_get_free_space (env m))) ].
Proof.
  intros m'. subst m'. wp_run_all.
  all: try discriminate.
  all: rewrite <- ?app_assoc.
  all: repeat split; reflexivity.
Qed.

End FaceProperties.

(** ** The properties at work on the small platform *)

(** With two bytes left when the steps are committed, the marker is written
    and the write of the step count is short. *)
Lemma log_steps_short_write_witness :
  let m := Scenario.labeling_23 15 in
  let m1 := run _log_open m in
  let w1 := lfs_file_write [LOG_FILE_MARKER] (env m1) in
  let w2 := lfs_file_write (le_bytes 2 (steps (state m))) (snd w1) in
  let m' := run _log_steps m in
  (to_uint32 (fst w1) <> 1 \/ to_uint32 (fst w2) <> 2)
  /\ (error (state m') = ERROR_WRITE_DATA
      /\ steps (state m') = steps (state m)
      /\ (exists post, trace m' = trace m1 ++ post /\ filter is_close post = [])
      /\ (0 <= fst (lfs_file_open (env m)) ->
          forall o, handle_after o (trace m') = true)).
Proof.
  intros m m1 w1 w2 m'.
  assert (H : to_uint32 (fst w1) <> 1 \/ to_uint32 (fst w2) <> 2)
    by (right; vm_compute; discriminate).
  split; [exact H | exact (@log_steps_short_write Sim.platform m H)].
Defined.

(** The buffer is exhausted: the encoder answers 255 and the teardown
    follows. *)
Lemma transmit_sentinel_teardown_witness :
  let m := Scenario.transmitting_done in
  let r := chirpy_get_next_tone machine _chirp_next_byte
             (chirpy_encoder_state (state m)) m in
  let m' := run _chirp_tick_transmit m in
  to_uint8 (fst (fst r)) = 255
  /\ chirping (state m') = false
  /\ chirp_data_ptr m' = 0 /\ chirp_data_ix m' = 0 /\ chirp_data_len m' = 0
  /\ trace m' = [chirpy_get_next_tone_call 255; watch_clear_indicator_call;
                 watch_set_buzzer_off_call;
                 movement_request_tick_frequency_call 1; free_call 4096].
Proof.
  intros m r m'.
  assert (H : to_uint8 (fst (fst r)) = 255) by (vm_compute; reflexivity).
  destruct (@transmit_sentinel_teardown Sim.platform m H)
    as (H1 & H2 & H3 & H4 & H5 & _).
  repeat split; first [assumption | rewrite H5; vm_compute; reflexivity].
Defined.

(** With 23 steps entered the light button leaves 22, not 13. *)
Lemma labeling_light_button_down_witness :
  let m := Scenario.labeling_23 100 in
  let e := Scenario.event EVENT_LIGHT_BUTTON_DOWN in
  let m' := run (stepcounter_logging_face_loop e) m in
  steps (state m) = 23
  /\ steps (state m') = 22
  /\ steps (state m') <> Z.max (steps (state m) - 10) 0.
Proof.
  intros m e m'.
  assert (Hpage : page (state m) = PAGE_LABELING) by (vm_compute; reflexivity).
  assert (Hev : event_type e = EVENT_LIGHT_BUTTON_DOWN) by reflexivity.
  assert (H23 : steps (state m) = 23) by (vm_compute; reflexivity).
  assert (Hsteps : uint16 (steps (state m)))
    by (rewrite H23; unfold uint16; lia).
  destruct (@labeling_light_button_down Sim.platform m e Hpage Hev Hsteps)
    as (H1 & _).
  fold m' in H1. rewrite H1, H23. repeat split; lia.
Defined.

(** After setup and activation, with a filesystem that refuses the open:
    the alarm button leaves [start_ts] at the clock time and no handle
    open. *)
Lemma start_recording_open_failure_witness :
  let m := Scenario.started Scenario.no_open in
  let e := Scenario.event EVENT_ALARM_BUTTON_UP in
  let m' := run (stepcounter_logging_face_loop e) m in
  start_ts (state m) = 0
  /\ fst (lfs_file_open (lis2dw_clear_fifo (env m))) = Sim.LFS_ERR_NOSPC
  /\ start_ts (state m') <> 0
  /\ page (state m') = PAGE_RECORDING
  /\ exists post, trace m' = trace m ++ post /\ handle_after false post = false.
Proof.
  intros m e m'.
  assert (Hev : event_type e = EVENT_ALARM_BUTTON_UP) by reflexivity.
  assert (Hpage : page (state m) = PAGE_RECORDING) by (vm_compute; reflexivity).
  assert (Hts : start_ts (state m) = 0) by (vm_compute; reflexivity).
  assert (Hopen : fst (lfs_file_open (lis2dw_clear_fifo (env m))) < 0)
    by (vm_compute; reflexivity).
  assert (Hclock : to_uint32 (rtc_unix_time
                                (snd (lfs_file_open (lis2dw_clear_fifo (env m)))))
                   <> 0)
    by (vm_compute; discriminate).
  split; [exact Hts | split; [vm_compute; reflexivity |]].
  exact (@start_recording_open_failure Sim.platform m e Hev Hpage Hts Hopen Hclock).
Defined.

(** The countdown ends on a platform whose heap is exhausted. *)
Lemma countdown_end_load_failure_witness :
  let m := Scenario.countdown_over Scenario.no_heap in
  let e := Scenario.event EVENT_TICK in
  let m' := run (stepcounter_logging_face_loop e) m in
  load_failure (env m) ERROR_ALLOC_MEM
  /\ error (state m') = ERROR_ALLOC_MEM
  /\ chirping (state m') = true
  /\ tick_fun (chirpy_tick_state (state m')) = tick_fun_transmit
  /\ tick_compare (chirpy_tick_state (state m')) = 3
  /\ exists post, trace m' = trace m ++ post
                  /\ (forall f, tick_frequency_after f post = f)
                  /\ filter is_free post = [].
Proof.
  intros m e m'.
  assert (Hload : load_failure (env m) ERROR_ALLOC_MEM)
    by (apply load_no_memory; vm_compute; reflexivity).
  split; [exact Hload |].
  apply (@countdown_end_load_failure Sim.platform m e ERROR_ALLOC_MEM);
    try exact Hload; vm_compute; reflexivity.
Defined.

(** After the allocation failure of the run above the transmit phase goes
    on: four ticks later the encoder is asked for a tone, the callback reads
    through the null pointer and the buzzer is switched on.  What such a
    read returns is the choice of the platform; on this one it is a byte of
    the log file. *)
Lemma alloc_failure_still_transmits :
  let m := Scenario.countdown_over Scenario.no_heap in
  let m' := deliver (repeat (Scenario.event EVENT_TICK) 5) m in
  error (state m') = ERROR_ALLOC_MEM
  /\ chirp_data_ptr m' = 0
  /\ chirp_data_ix m' = 1
  /\ chirping (state m') = true
  /\ filter is_get_next_tone (trace m') <> []
  /\ buzzer_after false (trace m') = true.
Proof.
  vm_compute. repeat split; discriminate.
Qed.



(** The scenario of the specification: a recording with two ticks of five
    samples each, magnitudes only, stopped, labelled with 23 steps and
    committed.  The file holds the header, two blocks of five 3-byte
    magnitudes, the marker byte and the step count. *)
Example scenario_log_file :
  let five := mk_fifo (repeat (mk_reading 16 15 6) 5) 5 in
  let ev := Scenario.event in
  let m0 := Scenario.started (Sim.quiet 4000 None) in
  let m1 := deliver [ev EVENT_ALARM_BUTTON_UP] m0 in
  let m2 := deliver [ev EVENT_TICK] (Scenario.sense five m1) in
  let m3 := deliver [ev EVENT_TICK] (Scenario.sense five m2) in
  let m4 := deliver ([ev EVENT_ALARM_BUTTON_UP]
                       ++ repeat (ev EVENT_ALARM_BUTTON_DOWN) 3
                       ++ repeat (ev EVENT_LIGHT_BUTTON_DOWN) 7
                       ++ [ev EVENT_MODE_BUTTON_UP]) m3 in
  Sim.log_file (env m4)
  = Some ([35; 66; 1; 0; 0; 0; 0; 2; 1; 128; 170; 2; 105]
            ++ 5 :: concat (repeat [32; 0; 0] 5)
            ++ 5 :: concat (repeat [32; 0; 0] 5)
            ++ [255; 23; 0])
  /\ page (state m4) = PAGE_RECORDING
  /\ steps (state m4) = 0
  /\ error (state m4) = 0.
Proof. vm_compute. repeat split; reflexivity. Qed.

(** ** Further properties of the arithmetic helpers *)

(** X1: on every reading of three signed 16-bit axes [fast_l1_norm] is the
    sum of the absolute values of the axes, at most 98304. *)
Theorem fast_l1_norm_sum (r : lis2dw_reading_t) :
  reading_ok r ->
  fast_l1_norm r = Z.abs (rx r) + Z.abs (ry r) + Z.abs (rz r)
  /\ 0 <= fast_l1_norm r <= 98304.
Proof.
  intros Hr. rewrite (fast_l1_norm_abs r Hr).
  destruct Hr as (Hx & Hy & Hz).
  pose proof (abs16_range _ Hx). pose proof (abs16_range _ Hy).
  pose proof (abs16_range _ Hz). lia.
Qed.

(** The reading (-3, 4, -32768): the minimum value counts 32768. *)
Lemma fast_l1_norm_sum_witness :
  let r := mk_reading (-3) 4 (-32768) in
  reading_ok r /\ fast_l1_norm r = 32775.
Proof.
  intros r.
  assert (Hr : reading_ok r) by (unfold reading_ok, int16; simpl; lia).
  split; [exact Hr |].
  destruct (fast_l1_norm_sum r Hr) as (H & _). rewrite H. reflexivity.
Defined.

(** X2: [fast_l2_norm] lies between the largest absolute value of the axes
    and their sum ([fast_l1_norm]); hence it is never below the Euclidean
    norm divided by the square root of 3. *)
Theorem fast_l2_norm_between (r : lis2dw_reading_t) :
  reading_ok r ->
  Z.max (Z.max (Z.abs (rx r)) (Z.abs (ry r))) (Z.abs (rz r)) <= fast_l2_norm r
  /\ fast_l2_norm r <= fast_l1_norm r
  /\ rx r ^ 2 + ry r ^ 2 + rz r ^ 2 <= 3 * fast_l2_norm r ^ 2.
Proof.
  intros Hr.
  pose proof (fast_l1_norm_abs r Hr) as Hl1.
  destruct (fast_l2_norm_network r Hr) as (a & b & c & Hperm & Hsorted & Hn).
  destruct Hr as (Hx & Hy & Hz).
  pose proof (abs16_range _ Hx) as Hp. pose proof (abs16_range _ Hy) as Hq.
  pose proof (abs16_range _ Hz) as Hs.
  assert (Hsq : rx r ^ 2 + ry r ^ 2 + rz r ^ 2
                = Z.abs (rx r) ^ 2 + Z.abs (ry r) ^ 2 + Z.abs (rz r) ^ 2)
    by (rewrite !Z.pow_2_r, !Z.abs_square; reflexivity).
  rewrite Hl1, Hn, Hsq. clear Hl1 Hn Hsq Hx Hy Hz.
  set (p := Z.abs (rx r)) in *. set (q := Z.abs (ry r)) in *.
  set (s := Z.abs (rz r)) in *. clearbody p q s.
  apply perm3_cases in Hperm.
  assert (Hu : 0 <= 15 * b / 16 <= b)
    by (split; [apply Z.div_pos; lia | apply Z.div_le_upper_bound; lia]).
  assert (Hv : 0 <= 3 * c / 8 <= c)
    by (split; [apply Z.div_pos; lia | apply Z.div_le_upper_bound; lia]).
  assert (Hc : 0 <= c /\ c <= b /\ b <= a)
    by (destruct Hperm as [(-> & [(-> & ->) | (-> & ->)])
                          | [(-> & [(-> & ->) | (-> & ->)])
                            | (-> & [(-> & ->) | (-> & ->)])]]; lia).
  set (u := 15 * b / 16) in *. set (v := 3 * c / 8) in *. clearbody u v.
  assert (Hsum : p ^ 2 + q ^ 2 + s ^ 2 = a ^ 2 + b ^ 2 + c ^ 2
                 /\ p + q + s = a + b + c
                 /\ Z.max (Z.max p q) s = a)
    by (destruct Hperm as [(-> & [(-> & ->) | (-> & ->)])
                          | [(-> & [(-> & ->) | (-> & ->)])
                            | (-> & [(-> & ->) | (-> & ->)])]];
        (split; [ring | split; lia])).
  destruct Hsum as (-> & -> & ->). clear Hperm Hp Hq Hs.
  split; [lia | split; [lia |]].
  assert (b ^ 2 <= a ^ 2) by (apply Z.pow_le_mono_l; lia).
  assert (c ^ 2 <= a ^ 2) by (apply Z.pow_le_mono_l; lia).
  assert (a ^ 2 <= (a + u + v) ^ 2) by (apply Z.pow_le_mono_l; lia).
  lia.
Qed.

(** On (1, 1, 1) the lower bound is attained: the result is 1. *)
Lemma fast_l2_norm_between_witness :
  let r := mk_reading 1 (-1) 1 in
  reading_ok r
  /\ fast_l2_norm r = 1
  /\ rx r ^ 2 + ry r ^ 2 + rz r ^ 2 = 3 * fast_l2_norm r ^ 2
  /\ (Z.max (Z.max (Z.abs (rx r)) (Z.abs (ry r))) (Z.abs (rz r))
      <= fast_l2_norm r
      /\ fast_l2_norm r <= fast_l1_norm r
      /\ rx r ^ 2 + ry r ^ 2 + rz r ^ 2 <= 3 * fast_l2_norm r ^ 2).
Proof.
  intros r.
  assert (Hr : reading_ok r) by (unfold reading_ok, int16; simpl; lia).
  split; [exact Hr | split; [reflexivity | split; [reflexivity |]]].
  exact (fast_l2_norm_between r Hr).
Defined.

(** X3: [fast_l2_norm] depends only on the absolute values of the axes,
    not on their order: two readings whose absolute values are a
    rearrangement of one another have the same magnitude. *)
Theorem fast_l2_norm_symmetric (r r' : lis2dw_reading_t) :
  reading_ok r -> reading_ok r' ->
  Permutation [Z.abs (rx r); Z.abs (ry r); Z.abs (rz r)]
              [Z.abs (rx r'); Z.abs (ry r'); Z.abs (rz r')] ->
  fast_l2_norm r = fast_l2_norm r'.
Proof.
  intros Hr Hr' Hperm.
  destruct (fast_l2_norm_network r Hr) as (a & b & c & Hp & Hs & ->).
  destruct (fast_l2_norm_network r' Hr') as (a' & b' & c' & Hp' & Hs' & ->).
  assert (H : Permutation [a; b; c] [a'; b'; c']).
  { etransitivity; [exact Hp |].
    etransitivity; [exact Hperm | symmetry; exact Hp']. }
  assert (a = a' /\ b = b' /\ c = c') as (-> & -> & ->)
    by (apply perm3_cases in H; lia).
  reflexivity.
Qed.

(** The readings (3, -40, 500) and (-500, -3, 40). *)
Lemma fast_l2_norm_symmetric_witness :
  fast_l2_norm (mk_reading 3 (-40) 500) = fast_l2_norm (mk_reading (-500) (-3) 40).
Proof.
  apply fast_l2_norm_symmetric.
  - unfold reading_ok, int16; simpl; lia.
  - unfold reading_ok, int16; simpl; lia.
  - simpl. symmetry. apply (Permutation_cons_append [3; 40] 500).
Defined.

(** X4: the three bytes [mag_buffer] packs are bytes and stand, least
    significant first, for the magnitude modulo 2^24; since both norms stay
    below 2^24, the magnitude of a reading is stored without loss. *)
Theorem mag_buffer_value (mag : Z) :
  Forall uint8 (mag_buffer mag)
  /\ length (mag_buffer mag) = 3%nat
  /\ le_value (mag_buffer mag) = mag mod 16777216
  /\ (forall r, reading_ok r ->
                le_value (mag_buffer (fast_l1_norm r)) = fast_l1_norm r
                /\ le_value (mag_buffer (fast_l2_norm r)) = fast_l2_norm r).
Proof.
  assert (Hval : forall v, le_value (mag_buffer v) = v mod 16777216).
  { intros v. unfold mag_buffer, le_value, to_uint8.
    rewrite !land_255, Z.shiftr_0_r, !Z.shiftr_div_pow2 by lia.
    change (2 ^ 8) with 256. change (2 ^ 16) with 65536.
    Z.div_mod_to_equations. lia. }
  split; [| split; [reflexivity | split; [apply Hval |]]].
  - unfold mag_buffer, to_uint8, uint8.
    repeat constructor; Z.div_mod_to_equations; lia.
  - intros r Hr. rewrite !Hval.
    pose proof (fast_l2_norm_range r Hr) as Hl2.
    pose proof (fast_l1_norm_abs r Hr) as Hl1.
    destruct Hr as (Hx & Hy & Hz).
    pose proof (abs16_range _ Hx). pose proof (abs16_range _ Hy).
    pose proof (abs16_range _ Hz).
    split; apply Z.mod_small; lia.
Qed.

Lemma shiftr31_int32 x : int32 x -> Z.shiftr x 31 = if x <? 0 then -1 else 0.
Proof.
  unfold int32; intros Hx. rewrite Z.shiftr_div_pow2 by lia.
  change (2 ^ 31) with 2147483648.
  destruct (Z.ltb_spec x 0).
  - symmetry. apply Z.div_unique with (r := x + 2147483648); lia.
  - apply Z.div_small; lia.
Qed.

(** X6: on every 32-bit integer but the minimum value, where negation
    overflows, [bitwise_abs] and [branch_abs] of the benchmark both return
    the absolute value. *)
Theorem bitwise_abs_branch_abs (x : Z) :
  int32 x -> x <> -2147483648 ->
  MathBench.bitwise_abs x = Z.abs x /\ MathBench.branch_abs x = Z.abs x.
Proof.
  intros Hx Hmin. unfold MathBench.bitwise_abs, MathBench.branch_abs.
  rewrite (shiftr31_int32 x Hx). unfold int32 in Hx.
  destruct (Z.ltb_spec x 0).
  - change (to_int32 (-1)) with (-1).
    rewrite Z.lxor_m1_r. unfold Z.lnot, to_uint32, to_int32.
    rewrite !(Z.mod_small (_ + 2147483648)) by lia.
    rewrite !Z.mod_small by lia. lia.
  - change (to_int32 0) with 0.
    rewrite Z.lxor_0_r, Z.sub_0_r. unfold to_uint32, to_int32.
    rewrite (Z.mod_small (_ + 2147483648)) by lia.
    rewrite !Z.mod_small by lia. lia.
Qed.

(** The first number of the table of the benchmark that is negative. *)
Lemma bitwise_abs_branch_abs_witness :
  MathBench.bitwise_abs (-12175) = 12175 /\ MathBench.branch_abs (-12175) = 12175.
Proof.
  apply (bitwise_abs_branch_abs (-12175)); unfold int32; lia.
Defined.

(** ** The further properties at work on the small platform *)

(** The magnitude of (16, 15, 6) is 32 and packs to 32, 0, 0. *)
Lemma mag_buffer_value_witness :
  let r := mk_reading 16 15 6 in
  reading_ok r
  /\ mag_buffer (fast_l2_norm r) = [32; 0; 0]
  /\ le_value (mag_buffer (fast_l2_norm r)) = fast_l2_norm r.
Proof.
  intros r.
  assert (Hr : reading_ok r) by (unfold reading_ok, int16; simpl; lia).
  split; [exact Hr | split; [reflexivity |]].
  destruct (mag_buffer_value 0) as (_ & _ & _ & H).
  exact (proj2 (H r Hr)).
Defined.

(** The 23 steps are committed on a filesystem with room. *)
Lemma labeling_commit_steps_witness :
  let m := Scenario.labeling_23 100 in
  let e := Scenario.event EVENT_MODE_BUTTON_UP in
  let m' := run (stepcounter_logging_face_loop e) m in
  steps (state m) = 23
  /\ steps (state m') = 0
  /\ page (state m') = PAGE_RECORDING
  /\ Sim.log_file (env m')
     = Some [35; 66; 1; 0; 0; 0; 0; 2; 1; 128; 170; 2; 105; 255; 23; 0].
Proof.
  intros m e m'.
  assert (Hpage : page (state m) = PAGE_LABELING) by (vm_compute; reflexivity).
  assert (Hev : event_type e = EVENT_MODE_BUTTON_UP) by reflexivity.
  assert (H1 : to_uint32
                 (fst (lfs_file_write [LOG_FILE_MARKER]
                                      (snd (lfs_file_open (env m))))) = 1)
    by (vm_compute; reflexivity).
  assert (H2 : to_uint32
                 (fst (lfs_file_write
                         (le_bytes 2 (steps (state m)))
                         (snd (lfs_file_write [LOG_FILE_MARKER]
                                              (snd (lfs_file_open (env m)))))))
               = 2)
    by (vm_compute; reflexivity).
  destruct (@labeling_commit_steps Sim.platform m e Hpage Hev H1 H2)
    as (Hs & Hp & _).
  split; [vm_compute; reflexivity |].
  split; [exact Hs | split; [exact Hp | vm_compute; reflexivity]].
Defined.

(** With two bytes left the commit fails, and the face is back on the
    recording page all the same, the 23 steps still pending. *)
Lemma labeling_mode_button_leaves_witness :
  let m := Scenario.labeling_23 15 in
  let e := Scenario.event EVENT_MODE_BUTTON_UP in
  let m' := run (stepcounter_logging_face_loop e) m in
  page (state m') = PAGE_RECORDING /\ steps (state m') = 23.
Proof.
  intros m e m'.
  assert (Hpage : page (state m) = PAGE_LABELING) by (vm_compute; reflexivity).
  assert (Hev : event_type e = EVENT_MODE_BUTTON_UP) by reflexivity.
  split.
  - exact (proj1 (@labeling_mode_button_leaves Sim.platform m e Hpage Hev)).
  - vm_compute. reflexivity.
Defined.

(** Two samples logged with raw axes and magnitudes on a filesystem with
    room: 1 + 2 * 9 bytes. *)
Lemma log_data_block_witness :
  let m := with_state (with_data_type 3 (state Scenario.recording_roomy))
                      Scenario.recording_roomy in
  let fifo := mk_fifo [mk_reading 16 15 6; mk_reading (-3) 4 0] 2 in
  let m' := run (_log_data fifo) m in
  error (state m') = error (state m)
  /\ block_bytes 3 fifo
     = [2; 16; 0; 15; 0; 6; 0; 32; 0; 0; 253; 255; 4; 0; 0; 0; 6; 0; 0].
Proof.
  intros m fifo m'.
  destruct (@log_data_block Sim.platform fifo m)
    as (post & Htrace & _ & _ & _ & _ & _ & _ & _ & Hfull).
  assert (Hrun : trace m'
                 = trace m
                     ++ [lfs_file_write_call [2] 1;
                         lfs_file_write_call [16; 0] 2;
                         lfs_file_write_call [15; 0] 2;
                         lfs_file_write_call [6; 0] 2;
                         lfs_file_write_call [32; 0; 0] 3;
                         lfs_file_write_call [253; 255] 2;
                         lfs_file_write_call [4; 0] 2;
                         lfs_file_write_call [0; 0] 2;
                         lfs_file_write_call [6; 0; 0] 3])
    by (vm_compute; reflexivity).
  fold m' in Htrace. rewrite Hrun in Htrace.
  apply app_inv_head in Htrace. subst post.
  assert (Hc : count fifo <> 0) by (vm_compute; discriminate).
  destruct (Hfull Hc eq_refl) as (Herr & _).
  split; [exact Herr | vm_compute; reflexivity].
Defined.

(** A tick right after activation. *)
Lemma recording_tick_idle_witness :
  let m := Scenario.started (Sim.quiet 4000 None) in
  let e := Scenario.event EVENT_TICK in
  state (run (stepcounter_logging_face_loop e) m) = state m.
Proof.
  intros m e.
  assert (Hpage : page (state m) = PAGE_RECORDING) by (vm_compute; reflexivity).
  assert (Hev : event_type e = EVENT_TICK) by reflexivity.
  assert (Hts : start_ts (state m) = 0) by (vm_compute; reflexivity).
  exact (proj1 (@recording_tick_idle Sim.platform m e Hpage Hev Hts)).
Defined.

(** A tick of a recording with room: the session goes on. *)
Lemma recording_tick_continues_witness :
  let m := Scenario.recording_roomy in
  let e := Scenario.event EVENT_TICK in
  let m' := run (stepcounter_logging_face_loop e) m in
  start_ts (state m') = start_ts (state m) /\ start_ts (state m) = 1761782400.
Proof.
  intros m e m'.
  assert (Hpage : page (state m) = PAGE_RECORDING) by (vm_compute; reflexivity).
  assert (Hev : event_type e = EVENT_TICK) by reflexivity.
  assert (Hts : start_ts (state m) <> 0) by (vm_compute; discriminate).
  assert (Hfree : MIN_FS_SPACE
                  <= filesystem_get_free_space (env (run recording_tick_log m)))
    by (vm_compute; discriminate).
  split; [| vm_compute; reflexivity].
  exact (proj1 (@recording_tick_continues Sim.platform m e Hpage Hev Hts Hfree)).
Defined.

(** A long press during a recording: the session stays open. *)
Lemma recording_long_press_witness :
  let m := Scenario.recording_roomy in
  let e := Scenario.event EVENT_ALARM_LONG_PRESS in
  let m' := run (stepcounter_logging_face_loop e) m in
  page (state m') = PAGE_CHIRPING
  /\ start_ts (state m') = 1761782400
  /\ Sim.handle_open (env m') = true.
Proof.
  intros m e m'.
  assert (Hpage : page (state m) = PAGE_RECORDING) by (vm_compute; reflexivity).
  assert (Hev : event_type e = EVENT_ALARM_LONG_PRESS) by reflexivity.
  split; [| split; vm_compute; reflexivity].
  exact (proj1 (@recording_long_press Sim.platform m e Hpage Hev)).
Defined.

(** The alarm button stops the recording. *)
Lemma recording_alarm_stops_witness :
  let m := Scenario.recording_roomy in
  let e := Scenario.event EVENT_ALARM_BUTTON_UP in
  let m' := run (stepcounter_logging_face_loop e) m in
  start_ts (state m') = 0 /\ index (state m') = 2.
Proof.
  intros m e m'.
  assert (Hpage : page (state m) = PAGE_RECORDING) by (vm_compute; reflexivity).
  assert (Hev : event_type e = EVENT_ALARM_BUTTON_UP) by reflexivity.
  assert (Hts : start_ts (state m) <> 0) by (vm_compute; discriminate).
  split; [| vm_compute; reflexivity].
  exact (proj1 (@recording_alarm_stops Sim.platform m e Hpage Hev Hts)).
Defined.

(** The mode button during a transmission. *)
Lemma chirping_mode_button_cancels_witness :
  let m := Scenario.transmitting_at 1 in
  let e := Scenario.event EVENT_MODE_BUTTON_UP in
  let m' := run (stepcounter_logging_face_loop e) m in
  page (state m') = PAGE_RECORDING
  /\ chirp_data_ptr m' = 0
  /\ filter is_free (trace m') = [free_call 4096].
Proof.
  intros m e m'.
  assert (Hpage : page (state m) = PAGE_CHIRPING) by reflexivity.
  assert (Hev : event_type e = EVENT_MODE_BUTTON_UP) by reflexivity.
  destruct (@chirping_mode_button_cancels Sim.platform m e Hpage Hev)
    as (Hp & _ & _ & _ & Hq & _).
  split; [exact Hp | split; [exact (proj1 (Hq eq_refl)) |]].
  vm_compute. reflexivity.
Defined.

(** The long press of the light button during a transmission. *)
Lemma chirping_light_long_press_deletes_witness :
  let m := Scenario.transmitting_at 1 in
  let e := Scenario.event EVENT_LIGHT_LONG_PRESS in
  let m' := run (stepcounter_logging_face_loop e) m in
  page (state m') = PAGE_RECORDING
  /\ Sim.log_file (env m') = None
  /\ filter touches_storage (trace m') = [free_call 4096; lfs_remove_call 0].
Proof.
  intros m e m'.
  assert (Hpage : page (state m) = PAGE_CHIRPING) by reflexivity.
  assert (Hev : event_type e = EVENT_LIGHT_LONG_PRESS) by reflexivity.
  split; [| split; vm_compute; reflexivity].
  exact (proj1 (@chirping_light_long_press_deletes Sim.platform m e Hpage Hev)).
Defined.

(** The second byte of the buffer. *)
Lemma chirp_next_byte_contract_witness :
  let m := Scenario.transmitting_at 1 in
  fst (_chirp_next_byte m) = Some 66
  /\ chirp_data_ix (snd (_chirp_next_byte m)) = 2.
Proof.
  intros m.
  assert (Hix : 0 <= chirp_data_ix m <= chirp_data_len m)
    by (vm_compute; split; discriminate).
  assert (Hlen : chirp_data_len m <= 65535) by (vm_compute; discriminate).
  destruct (@chirp_next_byte_contract Sim.platform m Hix Hlen)
    as (_ & Hmore & _).
  assert (Hlt : chirp_data_ix m < chirp_data_len m) by (vm_compute; reflexivity).
  destruct (Hmore Hlt) as (Hb & Hi).
  split; [rewrite Hb; vm_compute; reflexivity | rewrite Hi; reflexivity].
Defined.

(** Five calls from the start of the buffer supply its three bytes. *)
Lemma drain_supplies_buffer_witness :
  let m := Scenario.transmitting_at 0 in
  fst (drain 5 m) = [35; 66; 1]
  /\ chirp_data_ix (snd (drain 5 m)) = 3.
Proof.
  intros m.
  assert (Hix : 0 <= chirp_data_ix m <= chirp_data_len m)
    by (vm_compute; split; discriminate).
  assert (Hlen : chirp_data_len m <= 65535) by (vm_compute; discriminate).
  assert (Hn : (Z.to_nat (chirp_data_len m - chirp_data_ix m) <= 5)%nat)
    by (vm_compute; lia).
  destruct (@drain_supplies_buffer Sim.platform m 5%nat Hix Hlen Hn)
    as (Hf & Hi & _).
  split; [rewrite Hf; vm_compute; reflexivity | rewrite Hi; reflexivity].
Defined.

(** The first byte of the buffer gives tone 3. *)
Lemma transmit_tone_sounds_witness :
  let m := Scenario.transmitting_at 0 in
  let m' := run _chirp_tick_transmit m in
  trace m' = [chirpy_get_next_tone_call 3;
              watch_set_buzzer_period_and_duty_cycle_call 700 25;
              watch_set_buzzer_on_call]
  /\ chirp_data_ix m' = 1.
Proof.
  intros m m'.
  assert (Htone : to_uint8
                    (fst (fst (chirpy_get_next_tone
                                 machine _chirp_next_byte
                                 (chirpy_encoder_state (state m)) m)))
                  <> 255)
    by (vm_compute; discriminate).
  destruct (@transmit_tone_sounds Sim.platform m Htone)
    as (_ & _ & Hi & _ & _ & Ht & _).
  subst m'. split; [rewrite Ht | rewrite Hi]; vm_compute; reflexivity.
Defined.

(** A tick on the chirping page with no transmission running. *)
Lemma chirping_tick_waits_witness :
  let m := Scenario.chirping_idle in
  let e := Scenario.event EVENT_TICK in
  env (run (stepcounter_logging_face_loop e) m) = env m.
Proof.
  intros m e.
  assert (Hpage : page (state m) = PAGE_CHIRPING) by (vm_compute; reflexivity).
  assert (Hev : event_type e = EVENT_TICK) by reflexivity.
  assert (Hwait : chirping (state m) = false
                  \/ to_uint8 (tick_count (chirpy_tick_state (state m)) + 1)
                     <> tick_compare (chirpy_tick_state (state m)))
    by (left; vm_compute; reflexivity).
  destruct (@chirping_tick_waits Sim.platform m e Hpage Hev Hwait)
    as (_ & He & _).
  exact He.
Defined.

(** The alarm button on the idle chirping page. *)
Lemma chirping_alarm_starts_countdown_witness :
  let m := Scenario.chirping_idle in
  let e := Scenario.event EVENT_ALARM_BUTTON_UP in
  let m' := run (stepcounter_logging_face_loop e) m in
  chirping (state m') = true
  /\ chirpy_tick_state (state m') = mk_tick_state 255 8 0 tick_fun_countdown.
Proof.
  intros m e m'.
  assert (Hpage : page (state m) = PAGE_CHIRPING) by (vm_compute; reflexivity).
  assert (Hev : event_type e = EVENT_ALARM_BUTTON_UP) by reflexivity.
  destruct (@chirping_alarm_starts_countdown Sim.platform m e Hpage Hev)
    as (Hs & _).
  fold m' in Hs. rewrite Hs. split; reflexivity.
Defined.

(** A timeout on the recording page. *)
Lemma unhandled_event_forwarded_witness :
  let m := Scenario.started (Sim.quiet 4000 None) in
  let e := Scenario.event EVENT_TIMEOUT in
  state (run (stepcounter_logging_face_loop e) m) = state m.
Proof.
  intros m e.
  assert (Hin : In (event_type e)
                   [EVENT_NONE; EVENT_LOW_ENERGY_UPDATE; EVENT_BACKGROUND_TASK;
                    EVENT_TIMEOUT; EVENT_LIGHT_BUTTON_UP;
                    EVENT_MODE_BUTTON_DOWN; EVENT_MODE_LONG_PRESS])
    by (right; right; right; left; reflexivity).
  rewrite (@unhandled_event_forwarded Sim.platform m e Hin). reflexivity.
Defined.

(** The header error of a recording started on a filesystem that refuses
    the open survives the next tick. *)
Lemma error_is_sticky_witness :
  let m := deliver [Scenario.event EVENT_ALARM_BUTTON_UP]
                   (Scenario.started Scenario.no_open) in
  let e := Scenario.event EVENT_TICK in
  error (state m) = ERROR_WRITE_HEADER
  /\ error (state (run (stepcounter_logging_face_loop e) m)) <> 0.
Proof.
  intros m e.
  assert (Hpage : page (state m) = PAGE_CHIRPING ->
                  event_type e <> EVENT_TICK /\ event_type e <> EVENT_ACTIVATE)
    by (vm_compute; discriminate).
  assert (Herror : error (state m) <> 0) by (vm_compute; discriminate).
  split; [vm_compute; reflexivity |].
  exact (@error_is_sticky Sim.platform m e Hpage Herror).
Defined.

(** With 23 steps entered the alarm button gives 33. *)
Lemma labeling_steps_in_range_witness :
  let m := Scenario.labeling_23 100 in
  let e := Scenario.event EVENT_ALARM_BUTTON_DOWN in
  steps (state (run (stepcounter_logging_face_loop e) m)) = 33.
Proof.
  intros m e.
  assert (Hpage : page (state m) = PAGE_LABELING) by (vm_compute; reflexivity).
  assert (H23 : steps (state m) = 23) by (vm_compute; reflexivity).
  assert (Hsteps : uint16 (steps (state m)))
    by (rewrite H23; unfold uint16; lia).
  destruct (@labeling_steps_in_range Sim.platform m e Hpage Hsteps)
    as (_ & Hadd).
  destruct (Hadd eq_refl) as (Hs & _).
  rewrite Hs, H23. reflexivity.
Defined.

(** The countdown of a transmission started on the small platform: 193
    ticks bring the position to 24 with three alert tones. *)
Lemma countdown_duration_witness :
  countdown_at Scenario.chirping_started 192
               (deliver (repeat (mk_event EVENT_TICK 0) 193)
                        Scenario.chirping_started).
Proof.
  apply (@countdown_duration Sim.platform Scenario.chirping_started 192%nat).
  - vm_compute. reflexivity.
  - vm_compute. reflexivity.
  - vm_compute. reflexivity.
  - apply le_n.
Defined.

(** The countdown ends with the log file in place and the heap answering. *)
Lemma countdown_end_loads_witness :
  let m := Scenario.countdown_over (Sim.quiet 4000 (Some [35; 66; 1])) in
  let e := Scenario.event EVENT_TICK in
  let m' := run (stepcounter_logging_face_loop e) m in
  chirp_data_ptr m' = 4096
  /\ chirp_data_len m' = 3
  /\ tick_fun (chirpy_tick_state (state m')) = tick_fun_transmit.
Proof.
  intros m e m'.
  assert (Hpage : page (state m) = PAGE_CHIRPING) by (vm_compute; reflexivity).
  assert (Hev : event_type e = EVENT_TICK) by reflexivity.
  assert (Hc : chirping (state m) = true) by (vm_compute; reflexivity).
  assert (Hfire : to_uint8 (tick_count (chirpy_tick_state (state m)) + 1)
                  = tick_compare (chirpy_tick_state (state m)))
    by (vm_compute; reflexivity).
  assert (Hfun : tick_fun (chirpy_tick_state (state m)) = tick_fun_countdown)
    by (vm_compute; reflexivity).
  assert (Hpos : seq_pos (chirpy_tick_state (state m)) = 24)
    by (vm_compute; reflexivity).
  assert (Hfile : filesystem_file_exists (env m) = true)
    by (vm_compute; reflexivity).
  assert (Hmem : fst (malloc (to_uint16 (filesystem_get_file_size (env m)))
                             (env m)) <> 0)
    by (vm_compute; discriminate).
  assert (Hread : fst (filesystem_read_file
                         (fst (malloc (to_uint16 (filesystem_get_file_size (env m)))
                                      (env m)))
                         (to_uint16 (filesystem_get_file_size (env m)))
                         (snd (malloc (to_uint16 (filesystem_get_file_size (env m)))
                                      (env m)))) = true)
    by (vm_compute; reflexivity).
  destruct (@countdown_end_loads Sim.platform m e Hpage Hev Hc Hfire Hfun Hpos
                                 Hfile Hmem Hread)
    as (Hs & Hp & Hl & _).
  fold m' in Hs, Hp, Hl. rewrite Hs, Hp, Hl.
  repeat split; vm_compute; reflexivity.
Defined.

(** The header of a recording started on a filesystem with room. *)
Lemma start_recording_header_witness :
  let m := Scenario.started (Sim.quiet 4000 None) in
  let m' := run _start_recording m in
  start_ts (state m') = 1761782400
  /\ error (state m') = 0
  /\ write_buffers (skipn (length (trace m)) (trace m'))
     = [[35; 66]; [1]; [0; 0; 0; 0]; [2]; [1]; [128; 170; 2; 105]].
Proof.
  intros m m'.
  destruct (@start_recording_header Sim.platform m)
    as (Hts & _ & _ & post & Htrace & Hbuf & _ & Herr).
  split; [etransitivity; [exact Hts | vm_compute; reflexivity] |].
  assert (Hrun : trace (run _start_recording m)
                 = trace m
                     ++ [lis2dw_clear_fifo_call; lfs_file_open_call 0;
                         lfs_file_write_call [35; 66] 2;
                         lfs_file_write_call [1] 1;
                         lfs_file_write_call [0; 0; 0; 0] 4;
                         lfs_file_write_call [2] 1;
                         lfs_file_write_call [1] 1;
                         lfs_file_write_call [128; 170; 2; 105] 4])
    by (vm_compute; reflexivity).
  rewrite Hrun in Htrace. apply app_inv_head in Htrace. subst post.
  split.
  - etransitivity; [apply Herr | vm_compute; reflexivity].
    + vm_compute. discriminate.
    + reflexivity.
    + reflexivity.
  - subst m'. rewrite Hrun, skipn_app, skipn_all, Nat.sub_diag.
    etransitivity; [exact Hbuf | vm_compute; reflexivity].
Defined.

(** The reading (-3, 4, 0) logged with the raw axes selected, and 23 steps
    committed. *)
Lemma logged_values_read_back_witness :
  let m := Scenario.recording_raw in
  let r := mk_reading (-3) 4 0 in
  reading_ok r
  /\ uint16 (steps (state m))
  /\ (exists post,
         trace (snd (_log_data_reading 3 r m)) = trace m ++ post
         /\ write_buffers post = [[253; 255]; [4; 0]; [0; 0]; [6; 0; 0]]
         /\ map (fun b => to_int16 (le_value b)) (firstn 3 (write_buffers post))
            = [-3; 4; 0])
  /\ (exists post,
         trace (run _log_steps m) = trace m ++ post
         /\ map le_value (write_buffers post) = [255; 23]).
Proof.
  intros m r.
  assert (Hr : reading_ok r) by (unfold reading_ok, int16; simpl; lia).
  assert (Hsteps : uint16 (steps (state m)))
    by (unfold uint16; vm_compute; split; discriminate).
  destruct (@logged_values_read_back Sim.platform m r Hr Hsteps)
    as ((post1 & Ht1 & Haxes & _) & (post2 & Ht2 & Hcount) & _).
  split; [exact Hr | split; [exact Hsteps | split]].
  - exists post1. split; [exact Ht1 |].
    split; [| apply Haxes; vm_compute; reflexivity].
    assert (Hrun : trace (snd (_log_data_reading (data_type (state m)) r m))
                   = trace m
                       ++ [lfs_file_write_call [253; 255] 2;
                           lfs_file_write_call [4; 0] 2;
                           lfs_file_write_call [0; 0] 2;
                           lfs_file_write_call [6; 0; 0] 3])
      by (vm_compute; reflexivity).
    rewrite Hrun in Ht1. apply app_inv_head in Ht1. subst post1. reflexivity.
  - exists post2. split; [exact Ht2 |].
    apply Hcount. vm_compute. reflexivity.
Defined.
